(** * SailGPT WatchDog: the classifier and the reporter of [watchdog.py]

    A shallow embedding of [classify], [now_str] and [build_message].
    Python's [None]-able arguments are [option]s, its [int]s are [Z], its
    [float]s are IEEE-754 binary64 values ([spec_float] at precision 53),
    and a call that can raise returns a [result].  The wall clock that
    [now_str] reads is passed explicitly as the value [datetime.utcnow()]
    returned. *)

From Stdlib Require Import ZArith String Ascii List Bool Lia.
From Stdlib Require Import Floats.SpecFloat DecimalString DecimalFacts DecimalPos.
Import ListNotations.

Open Scope string_scope.
Open Scope Z_scope.

(** ** Python values and operators *)

Module Py.

Inductive exn : Set :=
| TypeError
| ZeroDivisionError
| OverflowError
| ValueError.

Inductive result (A : Type) : Type :=
| Ok (a : A)
| Raise (e : exn).

Arguments Ok {A} a.
Arguments Raise {A} e.

Definition bind {A B : Type} (r : result A) (k : A -> result B) : result B :=
  match r with
  | Ok a => k a
  | Raise e => Raise e
  end.

Definition returns {A : Type} (r : result A) : Prop := exists a, r = Ok a.

(** [x is None] and [x is not None]. *)
Definition is_None {A : Type} (x : option A) : bool :=
  match x with None => true | Some _ => false end.

Definition is_not_None {A : Type} (x : option A) : bool := negb (is_None x).

(** *** int *)

(** The decimal digits of [n], after a minus sign when it is negative. *)
Definition decimal (n : Z) : string := NilZero.string_of_int (Z.to_int n).

(** [sys.int_info.default_max_str_digits] *)
Definition MAX_STR_DIGITS : Z := 4300.

(** [str(n)], which is also what [f"{n}"] renders: ValueError for an int of
    more than 4300 digits, the sign not counted. *)
Definition str_int (n : Z) : result string :=
  if Z.of_nat (String.length (decimal (Z.abs n))) <=? MAX_STR_DIGITS then
    Ok (decimal n)
  else Raise ValueError.

(** [f"{x}"] for an int-or-None. *)
Definition str_opt_int (x : option Z) : result string :=
  match x with Some n => str_int n | None => Ok "None" end.

(** Truth value of an int-or-None: [None] and [0] are false. *)
Definition int_truthy (x : option Z) : bool :=
  match x with Some n => negb (n =? 0) | None => false end.

(** [x < n] and [x > n] against an int; ordering [None] is a TypeError. *)
Definition int_lt (x : option Z) (n : Z) : result bool :=
  match x with Some a => Ok (a <? n) | None => Raise TypeError end.

Definition int_gt (x : option Z) (n : Z) : result bool :=
  match x with Some a => Ok (a >? n) | None => Raise TypeError end.

(** [x != n] for an int-or-None: [None != n] is true. *)
Definition int_ne (x : option Z) (n : Z) : bool :=
  match x with Some a => negb (a =? n) | None => true end.

(** *** float (binary64) *)

Definition prec : Z := 53.
Definition emax : Z := 1024.
Definition float : Set := spec_float.

(** [float(n)] for an int whose conversion does not overflow. *)
Definition float_of_int (n : Z) : float := binary_normalize prec emax n 0 false.

(** The exact integer [n] as an unrounded operand. *)
Definition exact_int (n : Z) : float :=
  match n with
  | Z0 => S754_zero false
  | Zpos p => S754_finite false p 0
  | Zneg p => S754_finite true p 0
  end.

(** The decimal literal [n / 10^k], rounded to the nearest float. *)
Definition float_lit (n : Z) (k : nat) : float :=
  SFdiv prec emax (exact_int n) (exact_int (10 ^ Z.of_nat k)).

Definition float_mul (x y : float) : float := SFmul prec emax x y.

(** Truth value of a float-or-None: [None], [0.0] and [-0.0] are false. *)
Definition float_truthy (x : option float) : bool :=
  match x with
  | Some (S754_zero _) => false
  | Some _ => true
  | None => false
  end.

(** [x > y] against a float; ordering [None] is a TypeError. *)
Definition float_gt (x : option float) (y : float) : result bool :=
  match x with Some a => Ok (SFltb y a) | None => Raise TypeError end.

(** [x / y] on floats: only a zero divisor raises. *)
Definition float_truediv (x : option float) (y : float) : result float :=
  match x with
  | None => Raise TypeError
  | Some a =>
      match y with
      | S754_zero _ => Raise ZeroDivisionError
      | _ => Ok (SFdiv prec emax a y)
      end
  end.

(** Least magnitude that rounds past the largest finite float. *)
Definition overflow_threshold : Z := 2 ^ 1024 - 2 ^ 970.

(** [x / y] on ints: the exact quotient rounded once to the nearest float;
    ZeroDivisionError on a zero divisor, OverflowError when the quotient
    is too large for a float. *)
Definition int_truediv (x : option Z) (y : Z) : result float :=
  match x with
  | None => Raise TypeError
  | Some a =>
      if y =? 0 then Raise ZeroDivisionError
      else if overflow_threshold * Z.abs y <=? Z.abs a then Raise OverflowError
      else Ok (SFdiv prec emax (exact_int a) (exact_int y))
  end.

(** *** Fixed-point formatting, [f"{x:.Nf}"] *)

(** Nearest integer to [n / d] for [d > 0], ties to even. *)
Definition round_half_even (n d : Z) : Z :=
  let q := n / d in
  match 2 * (n mod d) ?= d with
  | Lt => q
  | Gt => q + 1
  | Eq => if Z.even q then q else q + 1
  end.

(** [|m * 2^e| * 10^ndigits] rounded to an integer. *)
Definition scaled (ndigits : nat) (m : positive) (e : Z) : Z :=
  let n := Zpos m * 10 ^ Z.of_nat ndigits in
  match e with
  | Zneg p => round_half_even n (2 ^ Zpos p)
  | _ => n * 2 ^ e
  end.

Fixpoint zeros (k : nat) : string :=
  match k with
  | O => ""
  | S k' => String "0" (zeros k')
  end.

Definition zero_pad (width : nat) (s : string) : string :=
  zeros (width - String.length s) ++ s.

(** The integer [n], read as [n / 10^ndigits], with [ndigits] decimals. *)
Definition fixed_point (ndigits : nat) (n : Z) : string :=
  match ndigits with
  | O => decimal n
  | S _ =>
      let p := 10 ^ Z.of_nat ndigits in
      decimal (n / p) ++ "." ++ zero_pad ndigits (decimal (n mod p))
  end.

Definition sign_txt (s : bool) : string := if s then "-" else "".

Definition format_f (ndigits : nat) (x : float) : string :=
  match x with
  | S754_nan => "nan"
  | S754_infinity s => sign_txt s ++ "inf"
  | S754_zero s => sign_txt s ++ fixed_point ndigits 0
  | S754_finite s m e => sign_txt s ++ fixed_point ndigits (scaled ndigits m e)
  end.

(** *** str *)

(** Truth value of a str-or-None: [None] and the empty string are false. *)
Definition str_truthy (x : option string) : bool :=
  match x with
  | Some EmptyString => false
  | Some _ => true
  | None => false
  end.

(** [x == s] for a str-or-None. *)
Definition str_eq (x : option string) (s : string) : bool :=
  match x with Some a => String.eqb a s | None => false end.

(** [sep.join(lines)]. *)
Definition join (sep : string) (lines : list string) : string :=
  String.concat sep lines.

(** The truth value of a list: empty is false. *)
Definition is_nil {A : Type} (l : list A) : bool :=
  match l with [] => true | _ :: _ => false end.

(** [sub in s]. *)
Fixpoint contains (sub s : string) : bool :=
  prefix sub s ||
  match s with
  | EmptyString => false
  | String _ s' => contains sub s'
  end.

(** [c.isspace()] for a character below code point 256. *)
Definition is_space (c : ascii) : bool :=
  let n := N_of_ascii c in
  ((9 <=? n) && (n <=? 13) || (28 <=? n) && (n <=? 32) || (n =? 133) || (n =? 160))%N.

(** [s.lstrip()], [s.rstrip()] and [s.strip()]. *)
Fixpoint lstrip (s : string) : string :=
  match s with
  | EmptyString => EmptyString
  | String c s' => if is_space c then lstrip s' else s
  end.

Fixpoint rstrip (s : string) : string :=
  match s with
  | EmptyString => EmptyString
  | String c s' =>
      match rstrip s' with
      | EmptyString => if is_space c then EmptyString else String c EmptyString
      | r => String c r
      end
  end.

Definition strip (s : string) : string := rstrip (lstrip s).

(** [s.split(sep)] for a one-character separator: one more piece than there
    are separators, empty pieces included. *)
Fixpoint split (sep : ascii) (s : string) : list string :=
  match s with
  | EmptyString => [EmptyString]
  | String c s' =>
      if Ascii.eqb c sep then EmptyString :: split sep s'
      else
        match split sep s' with
        | [] => [String c EmptyString]
        | w :: ws => String c w :: ws
        end
  end.

End Py.

Import Py.

Declare Scope py_scope.
Delimit Scope py_scope with py.
Notation "'let*' x ':=' e 'in' k" := (bind e (fun x => k))
  (at level 10, x name, e at level 100, k at level 200) : py_scope.
Open Scope py_scope.

(** ** The slice of Python's [datetime] that [now_str] uses *)

Module Datetime.

Record timedelta : Set := mk_timedelta_raw
  { td_days : Z; td_seconds : Z; td_microseconds : Z }.

(** The normalising constructor: [0 <= seconds < 86400] and
    [0 <= microseconds < 1000000] afterwards. *)
Definition normalize (d s us : Z) : timedelta :=
  let s' := s + us / 1000000 in
  {| td_days := d + s' / 86400;
     td_seconds := s' mod 86400;
     td_microseconds := us mod 1000000 |}.

(** [timedelta(days, hours=, minutes=, seconds=, microseconds=)]. *)
Definition mk_timedelta (d hours minutes seconds microseconds : Z) : timedelta :=
  normalize d (hours * 3600 + minutes * 60 + seconds) microseconds.

Definition timedelta_add (a b : timedelta) : timedelta :=
  normalize (td_days a + td_days b) (td_seconds a + td_seconds b)
            (td_microseconds a + td_microseconds b).

Record datetime : Set := mk_datetime
  { year : Z; month : Z; day : Z;
    hour : Z; minute : Z; second : Z; microsecond : Z }.

Definition MAXORDINAL : Z := 3652059.

Definition is_leap (y : Z) : bool :=
  (y mod 4 =? 0) && (negb (y mod 100 =? 0) || (y mod 400 =? 0)).

Definition DAYS_IN_MONTH (m : Z) : Z :=
  match m with
  | 1 => 31 | 2 => 28 | 3 => 31 | 4 => 30 | 5 => 31 | 6 => 30
  | 7 => 31 | 8 => 31 | 9 => 30 | 10 => 31 | 11 => 30 | 12 => 31
  | _ => -1
  end.

Definition DAYS_BEFORE_MONTH (m : Z) : Z :=
  match m with
  | 1 => 0 | 2 => 31 | 3 => 59 | 4 => 90 | 5 => 120 | 6 => 151
  | 7 => 181 | 8 => 212 | 9 => 243 | 10 => 273 | 11 => 304 | 12 => 334
  | _ => -1
  end.

Definition days_in_month (y m : Z) : Z :=
  if (m =? 2) && is_leap y then 29 else DAYS_IN_MONTH m.

Definition days_before_year (y : Z) : Z :=
  let y1 := y - 1 in
  y1 * 365 + y1 / 4 - y1 / 100 + y1 / 400.

Definition days_before_month (y m : Z) : Z :=
  DAYS_BEFORE_MONTH m + (if (m >? 2) && is_leap y then 1 else 0).

Definition ymd2ord (y m d : Z) : Z :=
  days_before_year y + days_before_month y m + d.

(** Ordinal to (year, month, day), with ordinal 1 being 1 January of year 1. *)
Definition ord2ymd (n0 : Z) : Z * Z * Z :=
  let n := n0 - 1 in
  let n400 := n / 146097 in
  let n := n mod 146097 in
  let y := n400 * 400 + 1 in
  let n100 := n / 36524 in
  let n := n mod 36524 in
  let n4 := n / 1461 in
  let n := n mod 1461 in
  let n1 := n / 365 in
  let n := n mod 365 in
  let y := y + n100 * 100 + n4 * 4 + n1 in
  if (n1 =? 4) || (n100 =? 4) then (y - 1, 12, 31)
  else
    let leapyear := (n1 =? 3) && (negb (n4 =? 24) || (n100 =? 3)) in
    let m := Z.shiftr (n + 50) 5 in
    let preceding := DAYS_BEFORE_MONTH m + (if (m >? 2) && leapyear then 1 else 0) in
    if preceding >? n then
      let m := m - 1 in
      let preceding :=
        preceding - (DAYS_IN_MONTH m + (if (m =? 2) && leapyear then 1 else 0)) in
      (y, m, n - preceding + 1)
    else (y, m, n - preceding + 1).

Definition toordinal (t : datetime) : Z := ymd2ord (year t) (month t) (day t).

(** What the constructor accepts. *)
Definition valid (t : datetime) : bool :=
  (1 <=? year t) && (year t <=? 9999) &&
  (1 <=? month t) && (month t <=? 12) &&
  (1 <=? day t) && (day t <=? days_in_month (year t) (month t)) &&
  (0 <=? hour t) && (hour t <? 24) &&
  (0 <=? minute t) && (minute t <? 60) &&
  (0 <=? second t) && (second t <? 60) &&
  (0 <=? microsecond t) && (microsecond t <? 1000000).

(** [t + other]: OverflowError when the date leaves years 1..9999. *)
Definition add (t : datetime) (other : timedelta) : result datetime :=
  let delta :=
    timedelta_add
      (mk_timedelta (toordinal t) (hour t) (minute t) (second t) (microsecond t))
      other in
  let h := td_seconds delta / 3600 in
  let rem := td_seconds delta mod 3600 in
  let mi := rem / 60 in
  let s := rem mod 60 in
  if (0 <? td_days delta) && (td_days delta <=? MAXORDINAL) then
    let '(y, m, d) := ord2ymd (td_days delta) in
    Ok (mk_datetime y m d h mi s (td_microseconds delta))
  else Raise OverflowError.

(** [strftime] directives and literal text; [%Y] is the year in decimal,
    unpadded, as glibc renders it. *)
Inductive fmt_item : Set :=
| Lit (s : string)
| Dir_d
| Dir_b
| Dir_Y
| Dir_H
| Dir_M.

(** Month abbreviations of the C locale. *)
Definition month_abbr (m : Z) : string :=
  match m with
  | 1 => "Jan" | 2 => "Feb" | 3 => "Mar" | 4 => "Apr" | 5 => "May" | 6 => "Jun"
  | 7 => "Jul" | 8 => "Aug" | 9 => "Sep" | 10 => "Oct" | 11 => "Nov" | 12 => "Dec"
  | _ => "?"
  end.

Definition two_digits (n : Z) : string := zero_pad 2 (decimal n).

Definition render (t : datetime) (i : fmt_item) : string :=
  match i with
  | Lit s => s
  | Dir_d => two_digits (day t)
  | Dir_b => month_abbr (month t)
  | Dir_Y => decimal (year t)
  | Dir_H => two_digits (hour t)
  | Dir_M => two_digits (minute t)
  end.

Fixpoint strftime (t : datetime) (fmt : list fmt_item) : string :=
  match fmt with
  | [] => ""
  | i :: fmt' => render t i ++ strftime t fmt'
  end.

End Datetime.

(** ** [watchdog.py] *)

Module Watchdog.

Import Datetime.

(** The module-level baselines that [classify] and [build_message] read. *)
Record Baselines : Set := mk_Baselines
  { BASELINE_SIZE : Z;
    BASELINE_TIME : float;
    SIZE_LOW : Z;
    SIZE_HIGH : Z;
    SLOW_FACTOR : float;
    SLOW_THRESHOLD : float }.

(** Their values as the module assigns them. *)
Definition module_baselines : Baselines :=
  let baseline_time := float_lit 21 2 in
  let slow_factor := float_lit 20 1 in
  {| BASELINE_SIZE := 1145;
     BASELINE_TIME := baseline_time;
     SIZE_LOW := 900;
     SIZE_HIGH := 1400;
     SLOW_FACTOR := slow_factor;
     SLOW_THRESHOLD := float_mul baseline_time slow_factor |}.

Definition IST_OFFSET : timedelta := mk_timedelta 0 5 30 0 0.

(** ["%d %b %Y, %H:%M IST"] *)
Definition IST_FORMAT : list fmt_item :=
  [Dir_d; Lit " "; Dir_b; Lit " "; Dir_Y; Lit ", "; Dir_H; Lit ":"; Dir_M; Lit " IST"].

(** [utcnow] is the reading of the clock that the call takes. *)
Definition now_str (utcnow : datetime) : result string :=
  let* ist_time := Datetime.add utcnow IST_OFFSET in
  Ok (strftime ist_time IST_FORMAT).

Section WithBaselines.

Variable g : Baselines.

Definition classify (status_code size_bytes : option Z) (time_sec : option float)
    (error : option string) : result (string * option string) :=
  if is_not_None error || is_None status_code || int_ne status_code 200 then
    Ok ("DOWN", Some "ERROR")
  else
    let* too_small := int_lt size_bytes (SIZE_LOW g) in
    let* out_of_range :=
      (if too_small then Ok true else int_gt size_bytes (SIZE_HIGH g)) in
    if out_of_range then Ok ("ABNORMAL", Some "CONTENT")
    else
      let* slow := float_gt time_sec (SLOW_THRESHOLD g) in
      if slow then Ok ("ABNORMAL", Some "SLOW")
      else Ok ("GOOD", None).

(** [size_txt] and [time_txt]: an absent measurement renders as ["N/A"]. *)
Definition size_txt (size_bytes : option Z) : result string :=
  match size_bytes with
  | Some n => let* digits := str_int n in Ok (digits ++ " bytes")
  | None => Ok "N/A"
  end.

Definition time_txt (time_sec : option float) : string :=
  match time_sec with
  | Some t => format_f 3 t ++ " s"
  | None => "N/A"
  end.

(** [pct_txt] of the CONTENT branch. *)
Definition pct_txt (size_bytes : option Z) : result string :=
  if int_truthy size_bytes && int_truthy (Some (BASELINE_SIZE g)) then
    let* ratio := int_truediv size_bytes (BASELINE_SIZE g) in
    let pct := float_mul ratio (float_of_int 100) in
    Ok (format_f 0 pct ++ "% of normal")
  else Ok "unknown vs normal".

(** [factor_txt] of the SLOW branch. *)
Definition factor_txt (time_sec : option float) : result string :=
  if float_truthy time_sec && float_truthy (Some (BASELINE_TIME g)) then
    let* factor := float_truediv time_sec (BASELINE_TIME g) in
    Ok (format_f 1 factor ++ "X slower than normal")
  else Ok "slower than normal".

(** [err_txt] of the DOWN branch. *)
Definition err_txt (status_code : option Z) (error : option string)
    : result string :=
  if str_truthy error then
    Ok (match error with Some e => e | None => "None" end)
  else if is_not_None status_code then
    let* code := str_opt_int status_code in
    Ok ("HTTP " ++ code)
  else Ok "Unknown error".

Definition build_message (utcnow : datetime) (state : string)
    (reason_tag : option string) (status_code size_bytes : option Z)
    (time_sec : option float) (error : option string) : result string :=
  let* ts := now_str utcnow in
  let* size_txt := size_txt size_bytes in
  let time_txt := time_txt time_sec in
  let header := "SAILGPT WatchDog: " ++ state in
  if String.eqb state "GOOD" then
    let* baseline_size := str_int (BASELINE_SIZE g) in
    Ok (join "  "
      [ header;
        "SailGPT is behaving normally.";
        "Last check: " ++ ts;
        "Response time: " ++ time_txt ++ " (normal ~"
          ++ format_f 2 (BASELINE_TIME g) ++ " s)";
        "Page size: " ++ size_txt ++ " (normal ~"
          ++ baseline_size ++ " bytes)" ])
  else if String.eqb state "ABNORMAL" then
    if str_eq reason_tag "CONTENT" then
      let* pct_txt := pct_txt size_bytes in
      let* baseline_size := str_int (BASELINE_SIZE g) in
      Ok (join "  "
        [ "SAILGPT WatchDog: ABNORMAL (CONTENT)";
          "SailGPT is reachable, but the page content is unusual compared to normal.";
          "Last check: " ++ ts;
          "Page size: " ++ size_txt ++ " (normal ~"
            ++ baseline_size ++ " bytes) = " ++ pct_txt ++ ".";
          "This may indicate an error page or backend issue. Please verify manually by logging in and sending a test prompt." ])
    else if str_eq reason_tag "SLOW" then
      let* factor_txt := factor_txt time_sec in
      let* baseline_size := str_int (BASELINE_SIZE g) in
      Ok (join "  "
        [ "SAILGPT WatchDog: ABNORMAL (SLOW)";
          "SailGPT is reachable, but slower than usual.";
          "Last check: " ++ ts;
          "Response time: " ++ time_txt ++ " (normal ~"
            ++ format_f 2 (BASELINE_TIME g) ++ " s) = " ++ factor_txt ++ ".";
          "Page size: " ++ size_txt ++ " (normal ~"
            ++ baseline_size ++ " bytes).";
          "System is up, but performance is degraded. May please monitor and escalate if users report issues." ])
    else
      let* status_txt := str_opt_int status_code in
      Ok (join "  "
        [ "SAILGPT WatchDog: ABNORMAL";
          "SailGPT is reachable, but behaviour is unusual.";
          "Last check: " ++ ts;
          "Status code: " ++ status_txt;
          "Response time: " ++ time_txt;
          "Page size: " ++ size_txt;
          "Please verify manually." ])
  else
    let* err_txt := err_txt status_code error in
    Ok (join "  "
      [ "SAILGPT WatchDog: DOWN";
        "SailGPT is not reachable.";
        "Last check: " ++ ts;
        "Error: " ++ err_txt ++ ".";
        "This indicates an outage at the portal/infra level." ]).

End WithBaselines.

Definition URL : string := "https://sailgpt.tekdinext.com".

(** The process environment, as [os.getenv] reads it. *)
Definition environ : Type := string -> option string.

Definition getenv (env : environ) (key : string) : option string := env key.

Definition getenv_default (env : environ) (key default : string) : string :=
  match env key with
  | Some v => v
  | None => default
  end.

(** [[cid.strip() for cid in raw.split(",") if cid.strip()]] *)
Definition parse_chat_ids (raw : string) : list string :=
  map strip (filter (fun cid => str_truthy (Some (strip cid))) (split "," raw)).

(** The Telegram settings the module reads when it is imported. *)
Record Config : Set := mk_Config
  { TG_TOKEN : option string;
    TG_CHAT_IDS : list string }.

Definition module_config (env : environ) : Config :=
  {| TG_TOKEN := getenv env "TG_TOKEN";
     TG_CHAT_IDS := parse_chat_ids (getenv_default env "TG_CHAT_IDS" "") |}.

(** What a run does to the outside: lines printed and HTTP GETs issued. *)
Inductive event : Set :=
| Print (text : string)
| Get (url : string) (params : list (string * string)) (timeout : Z).

(** How a Telegram request ends: a response, or an exception [e] of which
    [str(e)] is carried. *)
Inductive reply : Set :=
| Responded
| Failed (e : string).

(** The loop of [send_telegram]; [net k] is how the request numbered [k]
    ends. *)
Fixpoint send_each (base_url message : string) (cids : list string)
    (net : nat -> reply) (k : nat) : list event :=
  match cids with
  | [] => []
  | cid :: rest =>
      Get base_url [("chat_id", cid); ("text", message)] 5
      :: match net k with
         | Responded => send_each base_url message rest net (S k)
         | Failed e =>
             Print ("WARNING: Telegram send failed for " ++ cid ++ ": " ++ e)
             :: send_each base_url message rest net (S k)
         end
  end.

Definition send_telegram (cfg : Config) (message : string) (net : nat -> reply)
    : list event :=
  if negb (str_truthy (TG_TOKEN cfg)) || is_nil (TG_CHAT_IDS cfg) then
    [Print "WARNING: Telegram not configured (TG_TOKEN/TG_CHAT_IDS missing)."]
  else
    let base_url :=
      "https://api.telegram.org/bot"
        ++ match TG_TOKEN cfg with Some t => t | None => "None" end
        ++ "/sendMessage" in
    send_each base_url message (TG_CHAT_IDS cfg) net 0.

(** How the GET of [main] ends: a response with its status code and body,
    [elapsed] being the difference of the two [time.time()] readings around
    it, or an exception [e] of which [str(e)] is carried. *)
Inductive fetched : Set :=
| Response (status_code : Z) (content : string) (elapsed : float)
| FetchFailed (e : string).

(** [main]: the events of the run in order, or the exception that ends it. *)
Definition main (g : Baselines) (cfg : Config) (utcnow : datetime)
    (fetch : fetched) (net : nat -> reply) : result (list event) :=
  let '(status_code, size_bytes, time_sec, error) :=
    match fetch with
    | Response sc content elapsed =>
        (Some sc, Some (Z.of_nat (String.length content)), Some elapsed, None)
    | FetchFailed e => (None, None, None, Some e)
    end in
  let* verdict := classify g status_code size_bytes time_sec error in
  let '(state, reason_tag) := verdict in
  let* message :=
    build_message g utcnow state reason_tag status_code size_bytes time_sec error in
  Ok (Get URL [] 10
      :: Print message
      :: Print "  "
      :: Print ("STATE: " ++ state)
      :: (if negb (String.eqb state "GOOD") then send_telegram cfg message net
          else [])).

End Watchdog.

Import Datetime Watchdog.

(** ** Vocabulary of the statements *)

(** The four verdicts [classify] can return. *)
Definition verdicts : list (string * option string) :=
  [ ("DOWN", Some "ERROR");
    ("ABNORMAL", Some "CONTENT");
    ("ABNORMAL", Some "SLOW");
    ("GOOD", None) ].

(** The inputs on which [classify] compares nothing against [None]. *)
Definition measured (g : Baselines) (status_code size_bytes : option Z)
    (time_sec : option float) (error : option string) : Prop :=
  error = None -> status_code = Some 200 ->
  exists n, size_bytes = Some n /\
    (SIZE_LOW g <= n <= SIZE_HIGH g -> time_sec <> None).

(** [0.0] or [-0.0]. *)
Definition is_zero (x : float) : Prop :=
  match x with S754_zero _ => True | _ => False end.

(** Two clock readings within the same minute. *)
Definition same_minute (t1 t2 : datetime) : Prop :=
  year t1 = year t2 /\ month t1 = month t2 /\ day t1 = day t2 /\
  hour t1 = hour t2 /\ minute t1 = minute t2.

(** Seconds into the day of a clock reading, shifted by [IST_OFFSET]. *)
Definition shifted_seconds (t : datetime) : Z :=
  hour t * 3600 + minute t * 60 + second t + 19800.




(** A size whose quotient by any non-zero int fits a float; every byte count
    that [len] can return is one. *)
Definition size_fits (size_bytes : option Z) : Prop :=
  forall n, size_bytes = Some n -> Z.abs n < overflow_threshold.

(** ** Vocabulary of the further properties *)

(** Day [n] (from 0) of a year, to month and day, as [ord2ymd] ends. *)
Definition month_day (leapyear : bool) (n : Z) : Z * Z :=
  let m := Z.shiftr (n + 50) 5 in
  let preceding := DAYS_BEFORE_MONTH m + (if (m >? 2) && leapyear then 1 else 0) in
  if preceding >? n then
    let m := m - 1 in
    let preceding :=
      preceding - (DAYS_IN_MONTH m + (if (m =? 2) && leapyear then 1 else 0)) in
    (m, n - preceding + 1)
  else (m, n - preceding + 1).

Definition year_day (leapyear : bool) (m d : Z) : Z :=
  DAYS_BEFORE_MONTH m + (if (m >? 2) && leapyear then 1 else 0) + d - 1.

Definition month_length (leapyear : bool) (m : Z) : Z :=
  if (m =? 2) && leapyear then 29 else DAYS_IN_MONTH m.

(** [month_day] inverts [year_day] on every day of every month. *)
Definition month_day_inverts : bool :=
  forallb (fun leapyear =>
    forallb (fun mi =>
      forallb (fun di =>
        let m := Z.of_nat mi in
        let d := Z.of_nat di in
        implb (d <=? month_length leapyear m)
          (let '(m', d') := month_day leapyear (year_day leapyear m d) in
           (m' =? m) && (d' =? d)))
        (seq 1 31))
      (seq 1 12))
    [true; false].

Definition next_day (y m d : Z) : Z * Z * Z :=
  if d <? days_in_month y m then (y, m, d + 1)
  else if m <? 12 then (y, m + 1, 1)
  else (y + 1, 1, 1).

(** The reading advanced by 5 h 30 min of civil time. *)
Definition ist_civil (t : datetime) : datetime :=
  let mins := hour t * 60 + minute t + 330 in
  if mins <? 1440 then
    mk_datetime (year t) (month t) (day t) (mins / 60) (mins mod 60)
      (second t) (microsecond t)
  else
    let '(y, m, d) := next_day (year t) (month t) (day t) in
    mk_datetime y m d ((mins - 1440) / 60) (mins mod 60)
      (second t) (microsecond t).

(** From 18:30 on 31 December 9999. *)
Definition last_hours (t : datetime) : Prop :=
  year t = 9999 /\ month t = 12 /\ day t = 31 /\ 1110 <= hour t * 60 + minute t.

(** [c in s] for a character. *)
Fixpoint mem_char (c : ascii) (s : string) : bool :=
  match s with
  | EmptyString => false
  | String d s' => Ascii.eqb d c || mem_char c s'
  end.

(** A chat id as [parse_chat_ids] leaves it: not empty, no comma, no
    whitespace at either end. *)
Definition clean_id (cid : string) : Prop :=
  cid <> "" /\ mem_char "," cid = false /\ strip cid = cid.

(** Only commas and whitespace. *)
Fixpoint blank (s : string) : bool :=
  match s with
  | EmptyString => true
  | String c s' => (Ascii.eqb c "," || is_space c) && blank s'
  end.

Definition is_get (e : event) : bool :=
  match e with Get _ _ _ => true | Print _ => false end.

Definition is_print (e : event) : bool := negb (is_get e).

(** The request [send_telegram] issues for one chat id. *)
Definition telegram_request (token message cid : string) : event :=
  Get ("https://api.telegram.org/bot" ++ token ++ "/sendMessage")
      [("chat_id", cid); ("text", message)] 5.

Definition not_configured : event :=
  Print "WARNING: Telegram not configured (TG_TOKEN/TG_CHAT_IDS missing).".

(** One warning per chat id whose request failed, in order. *)
Definition failure_warnings (cids : list string) (replies : list reply)
    : list event :=
  flat_map
    (fun cr : string * reply =>
       match snd cr with
       | Responded => []
       | Failed e =>
           [Print ("WARNING: Telegram send failed for " ++ fst cr ++ ": " ++ e)]
       end)
    (combine cids replies).

(** Whether [send_telegram] takes its early return. *)
Definition unconfigured (cfg : Config) : bool :=
  negb (str_truthy (TG_TOKEN cfg)) || is_nil (TG_CHAT_IDS cfg).

(** The token, once [TG_TOKEN] is known to be set. *)
Definition token_of (cfg : Config) : string :=
  match TG_TOKEN cfg with Some t => t | None => "None" end.

(** The DOWN report with a given timestamp and error text. *)
Definition down_report (ts err : string) : string :=
  join "  "
    [ "SAILGPT WatchDog: DOWN";
      "SailGPT is not reachable.";
      "Last check: " ++ ts;
      "Error: " ++ err ++ ".";
      "This indicates an outage at the portal/infra level." ].

(** An int that [str] accepts: at most 4300 digits. *)
Definition printable (n : Z) : Prop :=
  Z.of_nat (String.length (decimal (Z.abs n))) <= MAX_STR_DIGITS.

Definition printable_opt (x : option Z) : Prop :=
  forall n, x = Some n -> printable n.

(** What the branch that [build_message] takes for [state] and [reason_tag]
    needs of the numbers it renders and divides. *)
Definition renders (g : Baselines) (state : string) (reason_tag : option string)
    (status_code size_bytes : option Z) (error : option string) : Prop :=
  printable_opt size_bytes
  /\ if String.eqb state "GOOD" then printable (BASELINE_SIZE g)
     else if String.eqb state "ABNORMAL" then
       if str_eq reason_tag "CONTENT" then
         (forall n, size_bytes = Some n -> n <> 0 -> BASELINE_SIZE g <> 0 ->
            Z.abs n < overflow_threshold * Z.abs (BASELINE_SIZE g))
         /\ printable (BASELINE_SIZE g)
       else if str_eq reason_tag "SLOW" then printable (BASELINE_SIZE g)
       else printable_opt status_code
     else str_truthy error = true \/ printable_opt status_code.

(** * Properties *)

Ltac divmod := Z.div_mod_to_equations; lia.

Ltac month_cases m :=
  let C := fresh "C" in
  assert (C : m = 1 \/ m = 2 \/ m = 3 \/ m = 4 \/ m = 5 \/ m = 6 \/ m = 7 \/ m = 8
              \/ m = 9 \/ m = 10 \/ m = 11 \/ m = 12) by lia;
  repeat (destruct C as [-> | C]); try subst m.

(** ** Float ordering *)

Section FloatOrder.

Lemma compare_cont_opp (p q : positive) (c : comparison) :
  Pos.compare_cont (CompOpp c) q p = CompOpp (Pos.compare_cont c p q).
Proof.
  revert q c.
  induction p as [p IH | p IH | ]; intros [q | q | ] c; simpl; auto;
    try (rewrite <- IH; reflexivity).
Qed.

Lemma SFcompare_antisym (x y : float) (c : comparison) :
  SFcompare x y = Some c -> SFcompare y x = Some (CompOpp c).
Proof.
  destruct x as [sx | sx | | sx mx ex], y as [sy | sy | | sy my ey]; simpl;
    try discriminate;
    try (destruct sx; intros [= <-]; reflexivity);
    try (destruct sy; intros [= <-]; reflexivity);
    try (destruct sx, sy; intros [= <-]; reflexivity).
  intros [= <-].
  rewrite (Z.compare_antisym ex ey).
  destruct sx, sy; simpl; try reflexivity;
    destruct (ex ?= ey); simpl; try reflexivity;
    rewrite <- (compare_cont_opp mx my Eq); simpl;
    try rewrite CompOpp_involutive; reflexivity.
Qed.

(** [x <= y] excludes [x > y], also for infinities and NaN. *)
Lemma SFleb_not_gt (x y : float) : SFleb x y = true -> SFltb y x = false.
Proof.
  unfold SFleb, SFltb.
  destruct (SFcompare x y) as [c | ] eqn:E; [ | discriminate].
  rewrite (SFcompare_antisym _ _ _ E).
  destruct c; simpl; congruence.
Qed.

End FloatOrder.

(** ** The classifier *)

Section Classifier.

Variable g : Baselines.

Lemma down_guard (status_code : option Z) (error : option string) :
  is_not_None error || is_None status_code || int_ne status_code 200 = false
  <-> error = None /\ status_code = Some 200.
Proof.
  destruct error as [e | ], status_code as [n | ]; simpl;
    try (split; [discriminate | intros [H1 H2]; discriminate]).
  destruct (Z.eqb_spec n 200) as [-> | Hn]; simpl; split; auto.
  - discriminate.
  - intros [_ [= H]]. contradiction.
Qed.

Lemma classify_raises_unless_measured (status_code size_bytes : option Z)
    (time_sec : option float) (error : option string) :
  returns (classify g status_code size_bytes time_sec error) ->
  measured g status_code size_bytes time_sec error.
Proof.
  intros [v Hv] He Hs. subst error status_code.
  unfold classify in Hv. simpl in Hv.
  destruct size_bytes as [n | ]; simpl in Hv; [ | discriminate].
  exists n. split; [reflexivity | ].
  intros [Hlo Hhi].
  destruct (Z.ltb_spec n (SIZE_LOW g)); [lia | ].
  simpl in Hv.
  destruct (n >? SIZE_HIGH g) eqn:E; [apply Z.gtb_lt in E; lia | ].
  simpl in Hv.
  destruct time_sec; [discriminate | discriminate Hv].
Qed.

(** C1 (amended).  [classify] returns one of its four verdicts, and raises
    nothing, on every input that is classified DOWN (error set, status code
    absent or not 200) and on every input with status code 200 and no error
    whose size is present and whose elapsed time is present whenever the size
    is inside the window; absent fields are otherwise unrestricted. *)
Theorem classify_total_when_measured (status_code size_bytes : option Z)
    (time_sec : option float) (error : option string) :
  measured g status_code size_bytes time_sec error ->
  exists v, classify g status_code size_bytes time_sec error = Ok v /\ In v verdicts.
Proof.
  intros Hm. unfold classify.
  destruct (is_not_None error || is_None status_code || int_ne status_code 200)
    eqn:Hguard.
  - eexists; split; [reflexivity | simpl; auto].
  - apply down_guard in Hguard. destruct Hguard as [He Hs].
    destruct (Hm He Hs) as [n [-> Ht]]. simpl.
    destruct (n <? SIZE_LOW g) eqn:Hlo; simpl.
    + eexists; split; [reflexivity | simpl; auto].
    + destruct (n >? SIZE_HIGH g) eqn:Hhi; simpl.
      * eexists; split; [reflexivity | simpl; auto].
      * apply Z.ltb_ge in Hlo.
        assert (Hle : n <= SIZE_HIGH g)
          by (destruct (Z.gtb_spec n (SIZE_HIGH g)); [discriminate | lia]).
        destruct time_sec as [t | ]; [ | exfalso; apply Ht; [lia | reflexivity]].
        simpl. destruct (SFltb (SLOW_THRESHOLD g) t);
          eexists; (split; [reflexivity | simpl; auto]).
Qed.

(** C3.  With an error set, or the status code absent, or a status code other
    than 200, [classify] returns (DOWN, ERROR) whatever the size and the
    elapsed time are, absent ones included: neither is looked at. *)
Theorem classify_down (status_code size_bytes : option Z)
    (time_sec : option float) (error : option string) :
  error <> None \/ status_code = None \/ status_code <> Some 200 ->
  classify g status_code size_bytes time_sec error = Ok ("DOWN", Some "ERROR").
Proof.
  intros H. unfold classify.
  destruct (is_not_None error || is_None status_code || int_ne status_code 200)
    eqn:Hguard; [reflexivity | ].
  apply down_guard in Hguard. destruct Hguard as [He Hs].
  destruct H as [H | [H | H]]; congruence.
Qed.

(** C4.  With status code 200, no error and a size outside
    [[SIZE_LOW, SIZE_HIGH]], [classify] returns (ABNORMAL, CONTENT) for every
    elapsed time, in particular for one above the slow threshold. *)
Theorem classify_content_first (n : Z) (time_sec : option float) :
  n < SIZE_LOW g \/ SIZE_HIGH g < n ->
  classify g (Some 200) (Some n) time_sec None = Ok ("ABNORMAL", Some "CONTENT").
Proof.
  intros H. unfold classify. simpl.
  destruct (Z.ltb_spec n (SIZE_LOW g)) as [Hlo | Hlo]; simpl; [reflexivity | ].
  destruct (Z.gtb_spec n (SIZE_HIGH g)) as [Hhi | Hhi]; simpl; [reflexivity | lia].
Qed.

(** C5.  With status code 200, no error, a size within the closed interval
    [[SIZE_LOW, SIZE_HIGH]] and an elapsed time at most the slow threshold,
    [classify] returns (GOOD, None); both bounds of the size window and the
    threshold itself are included. *)
Theorem classify_good (n : Z) (t : float) :
  SIZE_LOW g <= n <= SIZE_HIGH g ->
  SFleb t (SLOW_THRESHOLD g) = true ->
  classify g (Some 200) (Some n) (Some t) None = Ok ("GOOD", None).
Proof.
  intros [Hlo Hhi] Ht. unfold classify. simpl.
  destruct (Z.ltb_spec n (SIZE_LOW g)); [lia | ]. simpl.
  destruct (Z.gtb_spec n (SIZE_HIGH g)); [lia | ]. simpl.
  rewrite (SFleb_not_gt _ _ Ht). reflexivity.
Qed.

End Classifier.

(** C1, as stated, fails: status code 200 with the size absent, or with the
    size in the window and the elapsed time absent, raises TypeError. *)
Lemma classify_raises_on_absent_measurement :
  classify module_baselines (Some 200) None (Some (float_lit 20 2)) None
    = Raise TypeError
  /\ classify module_baselines (Some 200) (Some 1145) None None = Raise TypeError.
Proof. split; reflexivity. Qed.

Lemma classify_total_when_measured_witness :
  measured module_baselines (Some 200) (Some 1145) (Some (float_lit 20 2)) None
  /\ exists v,
       classify module_baselines (Some 200) (Some 1145) (Some (float_lit 20 2)) None
         = Ok v /\ In v verdicts.
Proof.
  assert (H : measured module_baselines (Some 200) (Some 1145)
                (Some (float_lit 20 2)) None).
  { intros _ _. exists 1145. split; [reflexivity | intros _; discriminate]. }
  split; [exact H | ].
  exact (classify_total_when_measured module_baselines _ _ _ _ H).
Defined.

Lemma classify_down_witness :
  classify module_baselines (Some 500) None None None = Ok ("DOWN", Some "ERROR").
Proof.
  apply (classify_down module_baselines (Some 500) None None None).
  right; right. discriminate.
Defined.

Lemma classify_content_first_witness :
  classify module_baselines (Some 200) (Some 500) (Some (float_lit 100 2)) None
    = Ok ("ABNORMAL", Some "CONTENT").
Proof.
  apply (classify_content_first module_baselines 500 (Some (float_lit 100 2))).
  left. simpl. lia.
Defined.

Lemma classify_good_witness :
  classify module_baselines (Some 200) (Some 900)
    (Some (SLOW_THRESHOLD module_baselines)) None = Ok ("GOOD", None).
Proof.
  apply (classify_good module_baselines 900 (SLOW_THRESHOLD module_baselines)).
  - simpl. lia.
  - vm_compute. reflexivity.
Defined.

(** The boundary cases of the module's own baselines. *)
Example classify_upper_bound_good :
  classify module_baselines (Some 200) (Some 1400) (Some (float_lit 20 2)) None
    = Ok ("GOOD", None).
Proof. reflexivity. Qed.

Example classify_just_outside :
  classify module_baselines (Some 200) (Some 899) (Some (float_lit 20 2)) None
    = Ok ("ABNORMAL", Some "CONTENT")
  /\ classify module_baselines (Some 200) (Some 1401) (Some (float_lit 20 2)) None
    = Ok ("ABNORMAL", Some "CONTENT").
Proof. split; reflexivity. Qed.

Example classify_slow :
  classify module_baselines (Some 200) (Some 1145) (Some (float_lit 100 2)) None
    = Ok ("ABNORMAL", Some "SLOW").
Proof. reflexivity. Qed.

(** ** The clock and the timestamp *)

Section Clock.

(** Adding [IST_OFFSET] to a reading whose microseconds are in range moves
    the date by the carry of the shifted seconds and nothing else. *)
Lemma add_IST_OFFSET t :
  0 <= microsecond t < 1000000 ->
  let T := shifted_seconds t in
  let D := toordinal t + T / 86400 in
  Datetime.add t IST_OFFSET =
    if (0 <? D) && (D <=? MAXORDINAL) then
      let '(y, m, d) := ord2ymd D in
      Ok (mk_datetime y m d (T mod 86400 / 3600) (T mod 86400 mod 3600 / 60)
            (T mod 86400 mod 3600 mod 60) (microsecond t))
    else Raise OverflowError.
Proof.
  intros Hus T D.
  unfold Datetime.add, timedelta_add, mk_timedelta, normalize. 
  change (td_days IST_OFFSET) with 0.
  change (td_seconds IST_OFFSET) with 19800.
  change (td_microseconds IST_OFFSET) with 0.
  cbn [td_days td_seconds td_microseconds].
  assert (E1 : microsecond t / 1000000 = 0) by (apply Z.div_small; lia).
  assert (E2 : microsecond t mod 1000000 = microsecond t) by (apply Z.mod_small; lia).
  rewrite E1, E2, !Z.add_0_r, E1, Z.add_0_r.
  set (X := hour t * 3600 + minute t * 60 + second t).
  assert (ED : toordinal t + X / 86400 + (X mod 86400 + 19800) / 86400 = D).
  { unfold D, T, shifted_seconds. fold X. divmod. }
  assert (ES : (X mod 86400 + 19800) mod 86400 = T mod 86400).
  { unfold T, shifted_seconds. fold X. divmod. }
  rewrite ED, ES, E2. reflexivity.
Qed.

(** The timestamp has minute resolution: seconds and microseconds of the
    reading do not show. *)
Lemma now_str_same_minute t1 t2 :
  valid t1 = true -> valid t2 = true -> same_minute t1 t2 ->
  now_str t1 = now_str t2.
Proof.
  unfold valid. intros V1 V2 (Hy & Hm & Hd & Hh & Hmi).
  repeat (apply andb_prop in V1; destruct V1 as [V1 ?]).
  repeat (apply andb_prop in V2; destruct V2 as [V2 ?]).
  repeat match goal with
         | H : (_ <=? _) = true |- _ => apply Z.leb_le in H
         | H : (_ <? _) = true |- _ => apply Z.ltb_lt in H
         end.
  unfold now_str.
  rewrite (add_IST_OFFSET t1), (add_IST_OFFSET t2) by lia.
  unfold shifted_seconds, toordinal. rewrite <- Hy, <- Hm, <- Hd, <- Hh, <- Hmi.
  set (X := hour t1 * 3600 + minute t1 * 60).
  assert (EX : exists k, X = 60 * k) by (exists (hour t1 * 60 + minute t1); unfold X; lia).
  destruct EX as [k EX].
  assert (ED : (X + second t1 + 19800) / 86400 = (X + second t2 + 19800) / 86400)
    by divmod.
  assert (EH : (X + second t1 + 19800) mod 86400 / 3600
               = (X + second t2 + 19800) mod 86400 / 3600) by divmod.
  assert (EM : (X + second t1 + 19800) mod 86400 mod 3600 / 60
               = (X + second t2 + 19800) mod 86400 mod 3600 / 60) by divmod.
  rewrite ED, EH, EM.
  destruct ((0 <? _) && _); [ | reflexivity].
  destruct (ord2ymd _) as [[y m] d]. reflexivity.
Qed.

Lemma days_before_year_bounds y :
  1 <= y <= 9998 -> 0 <= days_before_year y <= 3651329.
Proof. intros H. unfold days_before_year. divmod. Qed.

Lemma days_before_month_bounds y m :
  1 <= m <= 12 -> 0 <= days_before_month y m <= 335.
Proof.
  intros H. unfold days_before_month.
  assert (C : m = 1 \/ m = 2 \/ m = 3 \/ m = 4 \/ m = 5 \/ m = 6 \/ m = 7 \/ m = 8
              \/ m = 9 \/ m = 10 \/ m = 11 \/ m = 12) by lia.
  destruct (is_leap y);
    repeat (destruct C as [-> | C]; [simpl; lia | ]); subst m; simpl; lia.
Qed.

Lemma days_in_month_le y m : days_in_month y m <= 31.
Proof.
  unfold days_in_month.
  destruct ((m =? 2) && is_leap y); [lia | ].
  unfold DAYS_IN_MONTH.
  repeat match goal with |- context [match ?x with _ => _ end] => destruct x end; lia.
Qed.

(** Before year 9999 the shifted date stays inside [1, MAXORDINAL]. *)
Lemma now_str_returns t :
  valid t = true -> year t < 9999 -> returns (now_str t).
Proof.
  unfold valid. intros V Hy.
  repeat (apply andb_prop in V; destruct V as [V ?]).
  repeat match goal with
         | H : (_ <=? _) = true |- _ => apply Z.leb_le in H
         | H : (_ <? _) = true |- _ => apply Z.ltb_lt in H
         end.
  unfold now_str. rewrite add_IST_OFFSET by lia.
  pose proof (days_before_year_bounds (year t)) as By.
  pose proof (days_before_month_bounds (year t) (month t)) as Bm.
  pose proof (days_in_month_le (year t) (month t)) as Bd.
  assert (BT : 0 <= shifted_seconds t / 86400 <= 1)
    by (unfold shifted_seconds; divmod).
  assert (BD : 0 < toordinal t + shifted_seconds t / 86400 <= MAXORDINAL)
    by (unfold toordinal, ymd2ord, MAXORDINAL; lia).
  destruct BD as [BD1 BD2].
  apply Z.ltb_lt in BD1. apply Z.leb_le in BD2. rewrite BD1, BD2. simpl.
  destruct (ord2ymd _) as [[y m] d]. simpl. eexists. reflexivity.
Qed.

(** Day, month and year roll over with the shift; the last five and a half
    hours of year 9999 leave the range of [datetime]. *)
Example now_str_plain :
  now_str (mk_datetime 2026 11 4 9 58 13 123456) = Ok "04 Nov 2026, 15:28 IST".
Proof. vm_compute. reflexivity. Qed.

Example now_str_leap_day :
  now_str (mk_datetime 2024 2 28 18 30 0 0) = Ok "29 Feb 2024, 00:00 IST"
  /\ now_str (mk_datetime 2023 2 28 18 30 0 0) = Ok "01 Mar 2023, 00:00 IST".
Proof. split; vm_compute; reflexivity. Qed.

Example now_str_new_year :
  now_str (mk_datetime 2023 12 31 23 59 59 999999) = Ok "01 Jan 2024, 05:29 IST".
Proof. vm_compute. reflexivity. Qed.

Example now_str_end_of_range :
  now_str (mk_datetime 9999 12 31 18 29 59 999999) = Ok "31 Dec 9999, 23:59 IST"
  /\ now_str (mk_datetime 9999 12 31 18 30 0 0) = Raise OverflowError.
Proof. split; vm_compute; reflexivity. Qed.

End Clock.

(** ** Strings *)

Section Strings.

Lemma prefix_app_l (p a s : string) : prefix p a = true -> prefix p (a ++ s) = true.
Proof.
  revert a. induction p as [ | c p IH]; intros a H; [destruct (a ++ s); reflexivity | ].
  destruct a as [ | d a]; simpl in *; [discriminate | ].
  destruct (ascii_dec c d); [auto | discriminate].
Qed.

Lemma prefix_refl (p : string) : prefix p p = true.
Proof.
  induction p as [ | c p IH]; simpl; [reflexivity | ].
  destruct (ascii_dec c c); [exact IH | contradiction].
Qed.

Lemma contains_prefix (sub s : string) : prefix sub s = true -> contains sub s = true.
Proof. intros H. destruct s; cbn [contains]; rewrite H; reflexivity. Qed.

Lemma contains_app_r (sub a s : string) :
  contains sub s = true -> contains sub (a ++ s) = true.
Proof.
  intros H. induction a as [ | c a IH]; cbn [append contains]; [exact H | ].
  rewrite IH. apply orb_true_r.
Qed.

Lemma contains_app_l (sub a s : string) :
  contains sub a = true -> contains sub (a ++ s) = true.
Proof.
  induction a as [ | c a IH]; cbn [append contains]; intros H.
  - rewrite orb_false_r in H. apply contains_prefix.
    apply (prefix_app_l sub "" s H).
  - apply orb_true_iff in H. destruct H as [H | H].
    + change (String c (a ++ s)) with (String c a ++ s).
      rewrite (prefix_app_l _ _ s H). reflexivity.
    + rewrite (IH H). apply orb_true_r.
Qed.

(** Every report is a join of at least four lines whose third is the
    timestamp line. *)
Lemma report_shape (p h l2 l3 l4 : string) (rest : list string) :
  prefix p h = true ->
  prefix p (join "  " (h :: l2 :: l3 :: l4 :: rest)) = true
  /\ contains l3 (join "  " (h :: l2 :: l3 :: l4 :: rest)) = true.
Proof.
  intros H. unfold join.
  change (String.concat "  " (h :: l2 :: l3 :: l4 :: rest))
    with (h ++ "  " ++ l2 ++ "  " ++ l3 ++ "  " ++ String.concat "  " (l4 :: rest)).
  split; [apply prefix_app_l; exact H | ].
  do 4 apply contains_app_r. apply contains_app_l, contains_prefix, prefix_refl.
Qed.

End Strings.

(** ** Number formatting *)

Example format_f_rounds_half_even :
  format_f 0 (float_lit 5 1) = "0" /\ format_f 0 (float_lit 15 1) = "2"
  /\ format_f 0 (float_lit 25 1) = "2" /\ format_f 3 (float_lit 15 4) = "0.002".
Proof. repeat split; vm_compute; reflexivity. Qed.

Example format_f_special :
  format_f 3 S754_nan = "nan" /\ format_f 3 (S754_infinity true) = "-inf"
  /\ format_f 3 (S754_zero true) = "-0.000" /\ format_f 0 (float_lit (-3) 1) = "-0".
Proof. repeat split; vm_compute; reflexivity. Qed.

Example baselines_as_shown :
  format_f 2 (BASELINE_TIME module_baselines) = "0.21"
  /\ BASELINE_TIME module_baselines = S754_finite false 0x1ae147ae147ae1 (-55)
  /\ SLOW_THRESHOLD module_baselines = S754_finite false 0x1ae147ae147ae1 (-54).
Proof. repeat split; vm_compute; reflexivity. Qed.

(** [int / int] overflows exactly where the rounded quotient is infinite. *)
Example int_truediv_overflow_edge :
  int_truediv (Some overflow_threshold) 1 = Raise OverflowError
  /\ SFdiv prec emax (exact_int overflow_threshold) (exact_int 1)
     = S754_infinity false
  /\ int_truediv (Some (overflow_threshold - 1)) 1
     = Ok (S754_finite false 0x1fffffffffffff 971).
Proof. repeat split; vm_compute; reflexivity. Qed.

(** Every byte count that [len] returns fits. *)
Lemma len_size_fits (n : Z) : 0 <= n < 2 ^ 63 -> size_fits (Some n).
Proof.
  intros Hn m [= <-].
  assert (H : 2 ^ 63 < overflow_threshold) by reflexivity.
  lia.
Qed.

Lemma Ok_inj {A : Type} (a b : A) : Ok a = Ok b -> a = b.
Proof. intros H. injection H as H. exact H. Qed.
(** ** The calendar behind [now_str] *)

Section Calendar.

Lemma days_before_year_cycles (y : Z) :
  1 <= y ->
  let Y := y - 1 in
  days_before_year y
  = 146097 * (Y / 400) + 36524 * (Y mod 400 / 100) + 1461 * (Y mod 100 / 4)
    + 365 * (Y mod 4).
Proof. intros Hy Y. unfold days_before_year. fold Y. divmod. Qed.

Lemma is_leap_cycles (y : Z) :
  1 <= y ->
  let Y := y - 1 in
  is_leap y
  = (Y mod 4 =? 3) && (negb (Y mod 100 / 4 =? 24) || (Y mod 400 / 100 =? 3)).
Proof.
  intros Hy Y. unfold is_leap.
  replace y with (Y + 1) by (unfold Y; lia).
  destruct (Z.eqb_spec ((Y + 1) mod 4) 0), (Z.eqb_spec ((Y + 1) mod 100) 0),
    (Z.eqb_spec ((Y + 1) mod 400) 0), (Z.eqb_spec (Y mod 4) 3),
    (Z.eqb_spec (Y mod 100 / 4) 24), (Z.eqb_spec (Y mod 400 / 100) 3);
    simpl; try reflexivity; exfalso; divmod.
Qed.

Lemma month_length_le (leapyear : bool) (m : Z) : month_length leapyear m <= 31.
Proof.
  unfold month_length, DAYS_IN_MONTH.
  destruct ((m =? 2) && leapyear); [lia | ].
  repeat match goal with |- context [match ?x with _ => _ end] => destruct x end; lia.
Qed.

Lemma month_day_spec (leapyear : bool) (m d : Z) :
  1 <= m <= 12 -> 1 <= d <= month_length leapyear m ->
  month_day leapyear (year_day leapyear m d) = (m, d).
Proof.
  intros Hm Hd.
  pose proof (month_length_le leapyear m) as Hle.
  assert (H : month_day_inverts = true) by (vm_compute; reflexivity).
  unfold month_day_inverts in H. rewrite forallb_forall in H.
  assert (Hl : In leapyear [true; false]) by (destruct leapyear; simpl; auto).
  specialize (H leapyear Hl). rewrite forallb_forall in H.
  specialize (H (Z.to_nat m)). rewrite in_seq, forallb_forall in H.
  specialize (H ltac:(lia) (Z.to_nat d)). rewrite in_seq in H.
  specialize (H ltac:(lia)). cbv zeta in H.
  rewrite !Z2Nat.id in H by lia.
  destruct (Z.leb_spec d (month_length leapyear m)); [ | lia].
  cbn [implb] in H.
  destruct (month_day leapyear (year_day leapyear m d)) as [m' d'].
  apply andb_prop in H. destruct H as [H1 H2].
  apply Z.eqb_eq in H1, H2. congruence.
Qed.

Lemma ord2ymd_unfold (n0 : Z) :
  ord2ymd n0 =
    let n := n0 - 1 in
    let n400 := n / 146097 in
    let n := n mod 146097 in
    let n100 := n / 36524 in
    let n := n mod 36524 in
    let n4 := n / 1461 in
    let n := n mod 1461 in
    let n1 := n / 365 in
    let n := n mod 365 in
    let y := n400 * 400 + 1 + n100 * 100 + n4 * 4 + n1 in
    if (n1 =? 4) || (n100 =? 4) then (y - 1, 12, 31)
    else
      let '(m, d) :=
        month_day ((n1 =? 3) && (negb (n4 =? 24) || (n100 =? 3))) n in
      (y, m, d).
Proof.
  unfold ord2ymd, month_day. cbv zeta.
  destruct ((_ =? 4) || (_ =? 4)); [reflexivity | ].
  destruct (_ >? _); reflexivity.
Qed.

Lemma ord2ymd_ymd2ord (y m d : Z) :
  1 <= y -> 1 <= m <= 12 -> 1 <= d <= days_in_month y m ->
  ord2ymd (ymd2ord y m d) = (y, m, d).
Proof.
  intros Hy Hm Hd.
  rewrite ord2ymd_unfold. unfold ymd2ord, days_before_month.
  rewrite (days_before_year_cycles y Hy), (is_leap_cycles y Hy).
  unfold days_in_month in Hd. rewrite (is_leap_cycles y Hy) in Hd.
  cbv zeta in *.
  set (Y := y - 1) in *.
  set (a := Y / 400) in *. set (b := Y mod 400 / 100) in *.
  set (c := Y mod 100 / 4) in *. set (e := Y mod 4) in *.
  assert (HY : Y = 400 * a + 100 * b + 4 * c + e /\ 0 <= a /\ 0 <= b <= 3
               /\ 0 <= c <= 24 /\ 0 <= e <= 3)
    by (unfold a, b, c, e; assert (0 <= Y) by (unfold Y; lia); divmod).
  destruct HY as (HY & Ha & Hb & Hc & He).
  set (leap := (e =? 3) && (negb (c =? 24) || (b =? 3))) in *.
  fold (month_length leap m) in Hd.
  set (k := year_day leap m d).
  replace (146097 * a + 36524 * b + 1461 * c + 365 * e
           + (DAYS_BEFORE_MONTH m + (if (m >? 2) && leap then 1 else 0)) + d - 1)
    with (146097 * a + 36524 * b + 1461 * c + 365 * e + k)
    by (unfold k, year_day; lia).
  assert (Hk : 0 <= k <= 364 + (if leap then 1 else 0)).
  { assert (Hd31 := month_length_le leap m).
    unfold k, year_day, month_length in *.
    assert (C : m = 1 \/ m = 2 \/ m = 3 \/ m = 4 \/ m = 5 \/ m = 6 \/ m = 7 \/ m = 8
                \/ m = 9 \/ m = 10 \/ m = 11 \/ m = 12) by lia.
    clearbody leap.
    destruct leap; repeat (destruct C as [-> | C]); try subst m;
      cbv [DAYS_BEFORE_MONTH DAYS_IN_MONTH Z.gtb Z.eqb Z.compare Pos.compare
           Pos.compare_cont Pos.eqb andb] in *; lia. }
  assert (Hleap : leap = true -> e = 3 /\ (c <> 24 \/ b = 3)).
  { unfold leap. intros H. apply andb_prop in H. destruct H as [H1 H2].
    apply Z.eqb_eq in H1. apply orb_prop in H2.
    destruct H2 as [H2 | H2]; [apply negb_true_iff, Z.eqb_neq in H2 | apply Z.eqb_eq in H2];
      lia. }
  assert (Hk' : k <= 364 \/ (k = 365 /\ e = 3 /\ (c <> 24 \/ b = 3))).
  { destruct leap; [destruct (Hleap eq_refl) | ]; lia. }
  clear Hleap.
  assert (Hlast : k = 365 -> m = 12 /\ d = 31).
  { intros Hk365. assert (Hd31 := month_length_le leap m).
    unfold k, year_day, month_length in *.
    assert (C : m = 1 \/ m = 2 \/ m = 3 \/ m = 4 \/ m = 5 \/ m = 6 \/ m = 7 \/ m = 8
                \/ m = 9 \/ m = 10 \/ m = 11 \/ m = 12) by lia.
    clearbody leap.
    destruct leap; repeat (destruct C as [-> | C]); try subst m;
      cbv [DAYS_BEFORE_MONTH DAYS_IN_MONTH Z.gtb Z.eqb Z.compare Pos.compare
           Pos.compare_cont Pos.eqb andb] in *; lia. }
  set (n := 146097 * a + 36524 * b + 1461 * c + 365 * e + k).
  assert (E400 : n / 146097 = a) by (unfold n; divmod).
  assert (R400 : n mod 146097 = 36524 * b + 1461 * c + 365 * e + k)
    by (unfold n; divmod).
  rewrite E400, R400.
  set (n' := 36524 * b + 1461 * c + 365 * e + k).
  destruct Hk' as [Hk364 | (Hk365 & He3 & Hcb)].
  - assert (E100 : n' / 36524 = b) by (unfold n'; divmod).
    assert (R100 : n' mod 36524 = 1461 * c + 365 * e + k) by (unfold n'; divmod).
    rewrite E100, R100.
    set (n'' := 1461 * c + 365 * e + k).
    assert (E4 : n'' / 1461 = c) by (unfold n''; divmod).
    assert (R4 : n'' mod 1461 = 365 * e + k) by (unfold n''; divmod).
    rewrite E4, R4.
    assert (E1 : (365 * e + k) / 365 = e) by divmod.
    assert (R1 : (365 * e + k) mod 365 = k) by divmod.
    rewrite E1, R1.
    destruct (Z.eqb_spec e 4); [lia | ]. destruct (Z.eqb_spec b 4); [lia | ].
    cbn [orb]. fold leap.
    unfold k. rewrite (month_day_spec leap m d Hm Hd).
    f_equal. f_equal. unfold Y in HY. lia.
  - destruct (Hlast Hk365) as [-> ->].
    assert (Cb : (b = 3 /\ c = 24) \/ c <= 23) by lia.
    destruct Cb as [[Hb3 Hc24] | Hc23].
    + assert (E100 : n' / 36524 = 4) by (unfold n'; divmod).
      assert (R100 : n' mod 36524 = 0) by (unfold n'; divmod).
      rewrite E100, R100. cbn.
      f_equal. f_equal. unfold Y in HY. lia.
    + assert (E100 : n' / 36524 = b) by (unfold n'; divmod).
      assert (R100 : n' mod 36524 = 1461 * c + 365 * e + k) by (unfold n'; divmod).
      rewrite E100, R100.
      set (n'' := 1461 * c + 365 * e + k).
      assert (E4 : n'' / 1461 = c) by (unfold n''; divmod).
      assert (R4 : n'' mod 1461 = 1460) by (unfold n''; divmod).
      rewrite E4, R4. change (1460 / 365) with 4. change (1460 mod 365) with 0.
      cbn [Z.eqb Pos.eqb orb].
      f_equal. f_equal. unfold Y in HY. lia.
Qed.

Lemma days_in_month_bounds (y m : Z) : 1 <= m <= 12 -> 28 <= days_in_month y m <= 31.
Proof.
  intros Hm. unfold days_in_month.
  destruct (is_leap y); month_cases m; cbv [DAYS_IN_MONTH Z.eqb Pos.eqb andb]; lia.
Qed.

Lemma days_before_year_succ (y : Z) :
  1 <= y ->
  days_before_year (y + 1) = days_before_year y + 365 + (if is_leap y then 1 else 0).
Proof.
  intros Hy. unfold days_before_year, is_leap.
  replace (y + 1 - 1) with y by lia.
  destruct (Z.eqb_spec (y mod 4) 0), (Z.eqb_spec (y mod 100) 0),
    (Z.eqb_spec (y mod 400) 0); cbn [negb andb orb]; divmod.
Qed.

Lemma days_before_month_succ (y m : Z) :
  1 <= m < 12 ->
  days_before_month y (m + 1) = days_before_month y m + days_in_month y m.
Proof.
  intros Hm. unfold days_before_month, days_in_month.
  destruct (is_leap y); month_cases m; first [reflexivity | lia].
Qed.

Lemma ymd2ord_next_day (y m d : Z) :
  1 <= y -> 1 <= m <= 12 -> 1 <= d <= days_in_month y m ->
  let '(y', m', d') := next_day y m d in
  ymd2ord y' m' d' = ymd2ord y m d + 1
  /\ 1 <= y' /\ 1 <= m' <= 12 /\ 1 <= d' <= days_in_month y' m'.
Proof.
  intros Hy Hm Hd. unfold next_day.
  destruct (Z.ltb_spec d (days_in_month y m)) as [Hlt | Hge].
  - unfold ymd2ord. repeat split; lia.
  - assert (d = days_in_month y m) by lia. subst d.
    destruct (Z.ltb_spec m 12) as [Hm12 | Hm12].
    + pose proof (days_in_month_bounds y (m + 1)).
      unfold ymd2ord. rewrite days_before_month_succ by lia.
      repeat split; lia.
    + assert (m = 12) by lia. subst m.
      pose proof (days_in_month_bounds (y + 1) 1).
      unfold ymd2ord. rewrite days_before_year_succ by lia.
      unfold days_before_month, days_in_month.
      destruct (is_leap y), (is_leap (y + 1)); cbn; repeat split; lia.
Qed.

Lemma ymd2ord_bounds (y m d : Z) :
  1 <= y <= 9999 -> 1 <= m <= 12 -> 1 <= d <= days_in_month y m ->
  1 <= ymd2ord y m d <= MAXORDINAL.
Proof.
  intros Hy Hm Hd. unfold ymd2ord, MAXORDINAL.
  assert (Hk : 1 <= days_before_month y m + d <= 365 + (if is_leap y then 1 else 0)).
  { unfold days_before_month, days_in_month in *.
    destruct (is_leap y); month_cases m;
      cbv [DAYS_BEFORE_MONTH DAYS_IN_MONTH Z.gtb Z.eqb Z.compare Pos.compare
           Pos.compare_cont Pos.eqb andb] in *; lia. }
  assert (Hs := days_before_year_succ y ltac:(lia)).
  assert (H0 : 0 <= days_before_year y) by (unfold days_before_year; divmod).
  assert (H1 : days_before_year (y + 1) <= 3652059)
    by (unfold days_before_year; divmod).
  lia.
Qed.

Lemma valid_fields (t : datetime) :
  valid t = true ->
  1 <= year t <= 9999 /\ 1 <= month t <= 12
  /\ 1 <= day t <= days_in_month (year t) (month t)
  /\ 0 <= hour t < 24 /\ 0 <= minute t < 60 /\ 0 <= second t < 60
  /\ 0 <= microsecond t < 1000000.
Proof.
  unfold valid. intros V.
  repeat (apply andb_prop in V; destruct V as [V ?]).
  repeat match goal with
         | H : (_ <=? _) = true |- _ => apply Z.leb_le in H
         | H : (_ <? _) = true |- _ => apply Z.ltb_lt in H
         end.
  lia.
Qed.

Lemma add_IST_civil (t : datetime) :
  valid t = true ->
  (~ last_hours t -> Datetime.add t IST_OFFSET = Ok (ist_civil t))
  /\ (last_hours t -> Datetime.add t IST_OFFSET = Raise OverflowError).
Proof.
  intros V. destruct (valid_fields t V) as (Hy & Hm & Hd & Hh & Hmi & Hs & Hus).
  rewrite add_IST_OFFSET by lia. cbv zeta.
  unfold shifted_seconds, toordinal, ist_civil.
  set (mins := hour t * 60 + minute t + 330).
  set (T := hour t * 3600 + minute t * 60 + second t + 19800).
  assert (HT : T = mins * 60 + second t) by (unfold T, mins; lia).
  assert (Hsec : T mod 86400 mod 3600 mod 60 = second t) by (rewrite HT; divmod).
  assert (Hmin : T mod 86400 mod 3600 / 60 = mins mod 60) by (rewrite HT; divmod).
  pose proof (ymd2ord_bounds _ _ _ Hy Hm Hd) as Hord.
  destruct (Z.ltb_spec mins 1440) as [Hday | Hday].
  - assert (HD : T / 86400 = 0) by (rewrite HT; divmod).
    assert (Hhr : T mod 86400 / 3600 = mins / 60) by (rewrite HT; divmod).
    rewrite HD, Hhr, Hmin, Hsec, Z.add_0_r.
    destruct (Z.ltb_spec 0 (ymd2ord (year t) (month t) (day t))); [ | lia].
    destruct (Z.leb_spec (ymd2ord (year t) (month t) (day t)) MAXORDINAL); [ | lia].
    cbn [andb]. rewrite ord2ymd_ymd2ord by lia.
    split; [reflexivity | ].
    unfold last_hours. fold mins. intros (_ & _ & _ & H'). unfold mins in Hday. lia.
  - assert (HD : T / 86400 = 1) by (rewrite HT; unfold mins in *; divmod).
    assert (Hhr : T mod 86400 / 3600 = (mins - 1440) / 60)
      by (rewrite HT; unfold mins in *; divmod).
    rewrite HD, Hhr, Hmin, Hsec.
    pose proof (ymd2ord_next_day _ _ _ (proj1 Hy) Hm Hd) as Hnext.
    destruct (next_day (year t) (month t) (day t)) as [[y' m'] d'] eqn:En.
    destruct Hnext as (Hsucc & Hy' & Hm' & Hd').
    rewrite <- Hsucc.
    assert (Hcase : last_hours t \/ y' <= 9999).
    { unfold last_hours, next_day in *.
      destruct (Z.ltb_spec (day t) (days_in_month (year t) (month t)));
        [injection En as <- <- <-; right; lia | ].
      destruct (Z.ltb_spec (month t) 12); [injection En as <- <- <-; right; lia | ].
      injection En as <- <- <-.
      destruct (Z.eq_dec (year t) 9999) as [E | E]; [left | right; lia].
      assert (month t = 12) by lia.
      pose proof (days_in_month_bounds (year t) (month t) Hm).
      assert (day t = days_in_month (year t) (month t)) by lia.
      assert (days_in_month (year t) (month t) = 31)
        by (rewrite E; replace (month t) with 12; reflexivity).
      unfold mins in Hday. lia. }
    destruct Hcase as [Hlast | Hy9].
    + split; [contradiction | intros _].
      destruct Hlast as (E1 & E2 & E3 & _).
      assert (Emax : ymd2ord y' m' d' = MAXORDINAL + 1)
        by (rewrite Hsucc, E1, E2, E3; reflexivity).
      rewrite Emax.
      destruct (Z.leb_spec (MAXORDINAL + 1) MAXORDINAL); [lia | ].
      rewrite andb_false_r. reflexivity.
    + pose proof (ymd2ord_bounds y' m' d' ltac:(lia) Hm' Hd') as Hord'.
      destruct (Z.ltb_spec 0 (ymd2ord y' m' d')); [ | lia].
      destruct (Z.leb_spec (ymd2ord y' m' d') MAXORDINAL); [ | lia].
      cbn [andb]. rewrite ord2ymd_ymd2ord by lia.
      split; [reflexivity | ].
      intros (E1 & E2 & E3 & _).
      unfold next_day in En. rewrite E1, E2, E3 in En.
      change (31 <? days_in_month 9999 12) with false in En.
      change (12 <? 12) with false in En. cbv iota in En.
      injection En as <- <- <-. lia.
Qed.

End Calendar.

(** ** Int formatting *)

Section IntFormatting.

Lemma digits_double (d : Decimal.uint) :
  (Decimal.nb_digits (Decimal.Little.double d) <= S (Decimal.nb_digits d)
   /\ Decimal.nb_digits (Decimal.Little.succ_double d) <= S (Decimal.nb_digits d))%nat.
Proof.
  induction d as [ | d IH | d IH | d IH | d IH | d IH | d IH | d IH | d IH | d IH | d IH];
    cbn [Decimal.Little.double Decimal.Little.succ_double Decimal.nb_digits];
    try destruct IH; split; lia.
Qed.

Lemma digits_le_bits (p : positive) :
  (Decimal.nb_digits (Pos.to_little_uint p) <= Pos.size_nat p)%nat.
Proof.
  induction p as [p IH | p IH | ]; cbn [Pos.to_little_uint Pos.size_nat].
  - pose proof (proj2 (digits_double (Pos.to_little_uint p))). lia.
  - pose proof (proj1 (digits_double (Pos.to_little_uint p))). lia.
  - cbn. lia.
Qed.

Lemma bits_below (k : nat) (p : positive) :
  Zpos p < 2 ^ Z.of_nat k -> (Pos.size_nat p <= k)%nat.
Proof.
  revert k. induction p as [p IH | p IH | ]; intros k H; cbn [Pos.size_nat].
  - destruct k as [ | k]; [cbn in H; lia | ].
    rewrite Nat2Z.inj_succ, Z.pow_succ_r in H by lia.
    specialize (IH k). lia.
  - destruct k as [ | k]; [cbn in H; lia | ].
    rewrite Nat2Z.inj_succ, Z.pow_succ_r in H by lia.
    specialize (IH k). lia.
  - destruct k as [ | k]; [cbn in H; lia | lia].
Qed.

Lemma length_digits (d : Decimal.uint) :
  String.length (NilEmpty.string_of_uint d) = Decimal.nb_digits d.
Proof.
  induction d; cbn [NilEmpty.string_of_uint String.length Decimal.nb_digits];
    congruence.
Qed.

Lemma length_digits_zero (d : Decimal.uint) :
  (String.length (NilZero.string_of_uint d) <= Nat.max 1 (Decimal.nb_digits d))%nat.
Proof.
  unfold NilZero.string_of_uint.
  destruct d; try (rewrite length_digits; lia). cbn. lia.
Qed.

Lemma size_nat_pos (p : positive) : (1 <= Pos.size_nat p)%nat.
Proof. destruct p; cbn [Pos.size_nat]; lia. Qed.

Lemma length_decimal_pos (p : positive) :
  (String.length (decimal (Zpos p)) <= Pos.size_nat p)%nat.
Proof.
  unfold decimal. cbn [Z.to_int NilZero.string_of_int].
  pose proof (digits_le_bits p) as H.
  rewrite <- (DecimalFacts.nb_digits_rev (Pos.to_little_uint p)) in H.
  fold (Pos.to_uint p) in H.
  pose proof (length_digits_zero (Pos.to_uint p)).
  pose proof (size_nat_pos p). lia.
Qed.

(** An int below [2 ^ k] in magnitude has at most [k] digits. *)
Lemma printable_below (k : nat) (n : Z) :
  1 <= Z.of_nat k <= MAX_STR_DIGITS -> Z.abs n < 2 ^ Z.of_nat k -> printable n.
Proof.
  intros Hk Hn. unfold printable.
  destruct (Z.abs n) as [ | p | p] eqn:E; [ | | lia].
  - change (String.length (decimal 0)) with 1%nat. lia.
  - pose proof (length_decimal_pos p). pose proof (bits_below k p Hn). lia.
Qed.

Lemma str_int_printable (n : Z) : printable n -> str_int n = Ok (decimal n).
Proof.
  unfold printable, str_int. intros H.
  apply Z.leb_le in H. rewrite H. reflexivity.
Qed.

Lemma str_int_unprintable (n : Z) : ~ printable n -> str_int n = Raise ValueError.
Proof.
  unfold printable, str_int. intros H.
  destruct (Z.leb_spec (Z.of_nat (String.length (decimal (Z.abs n))))
              MAX_STR_DIGITS); [contradiction | reflexivity].
Qed.

Lemma printable_dec (n : Z) : printable n \/ ~ printable n.
Proof. unfold printable. lia. Qed.

Lemma str_int_returns (n : Z) : returns (str_int n) <-> printable n.
Proof.
  split.
  - intros [s H]. destruct (printable_dec n) as [Hp | Hp]; [exact Hp | ].
    rewrite (str_int_unprintable n Hp) in H. discriminate.
  - intros Hp. rewrite (str_int_printable n Hp). eexists. reflexivity.
Qed.

Lemma str_int_raises_only (n : Z) (e : exn) : str_int n = Raise e -> e = ValueError.
Proof.
  unfold str_int. destruct (_ <=? _); [discriminate | ].
  intros [= <-]. reflexivity.
Qed.

Lemma str_opt_int_returns (x : option Z) :
  returns (str_opt_int x) <-> printable_opt x.
Proof.
  destruct x as [n | ]; cbn [str_opt_int].
  - rewrite str_int_returns. split.
    + intros H m [= <-]. exact H.
    + intros H. apply H. reflexivity.
  - split; [intros _ m Hm; discriminate | intros _; eexists; reflexivity].
Qed.





End IntFormatting.

(** ** The reporter *)

Section Reporter.

Variable g : Baselines.

Lemma overflow_threshold_pos : 0 < overflow_threshold.
Proof. reflexivity. Qed.

Lemma bind_returns {A B : Type} (r : result A) (k : A -> result B) :
  returns (bind r k) <-> exists a, r = Ok a /\ returns (k a).
Proof.
  destruct r as [a | e]; cbn [bind]; split.
  - intros H. exists a. auto.
  - intros (a' & [= <-] & H). exact H.
  - intros [b H]. discriminate.
  - intros (a & H & _). discriminate.
Qed.

Lemma size_txt_returns (size_bytes : option Z) :
  returns (size_txt size_bytes) <-> printable_opt size_bytes.
Proof.
  destruct size_bytes as [n | ]; cbn [size_txt].
  - rewrite bind_returns. split.
    + intros (s & Hs & _) m [= <-]. apply str_int_returns. exists s. exact Hs.
    + intros H. destruct (proj2 (str_int_returns n) (H n eq_refl)) as [s Hs].
      exists s. split; [exact Hs | eexists; reflexivity].
  - split; [intros _ m Hm; discriminate | intros _; eexists; reflexivity].
Qed.

Lemma size_txt_raises_only (size_bytes : option Z) (e : exn) :
  size_txt size_bytes = Raise e -> e = ValueError.
Proof.
  destruct size_bytes as [n | ]; cbn [size_txt]; [ | discriminate].
  destruct (str_int n) as [s | e0] eqn:E; cbn [bind]; [discriminate | ].
  intros [= <-]. exact (str_int_raises_only n e0 E).
Qed.

(** [pct_txt] returns unless the quotient is too large for a float. *)
Lemma pct_txt_returns (size_bytes : option Z) :
  returns (pct_txt g size_bytes)
  <-> (forall n, size_bytes = Some n -> n <> 0 -> BASELINE_SIZE g <> 0 ->
         Z.abs n < overflow_threshold * Z.abs (BASELINE_SIZE g)).
Proof.
  unfold pct_txt, int_truediv.
  destruct size_bytes as [n | ]; cbn [int_truthy andb].
  2: { split; [intros _ m Hm; discriminate | intros _; eexists; reflexivity]. }
  destruct (Z.eqb_spec n 0) as [Hn | Hn]; cbn [negb andb].
  { split; [intros _ m [= <-]; contradiction | intros _; eexists; reflexivity]. }
  destruct (Z.eqb_spec (BASELINE_SIZE g) 0) as [HB | HB]; cbn [negb].
  { split; [intros _ m _ _ HB'; contradiction | intros _; eexists; reflexivity]. }
  destruct (Z.leb_spec (overflow_threshold * Z.abs (BASELINE_SIZE g)) (Z.abs n))
    as [Hov | Hov]; cbn [bind].
  - split; [intros [s H]; discriminate | ].
    intros H. specialize (H n eq_refl Hn HB). lia.
  - split; [intros _ m [= <-] _ _; exact Hov | intros _; eexists; reflexivity].
Qed.

Lemma pct_txt_fits (size_bytes : option Z) :
  size_fits size_bytes -> returns (pct_txt g size_bytes).
Proof.
  intros Hfit. apply pct_txt_returns. intros n Hn _ HB.
  pose proof (Hfit n Hn). pose proof overflow_threshold_pos.
  assert (overflow_threshold * 1 <= overflow_threshold * Z.abs (BASELINE_SIZE g))
    by (apply Z.mul_le_mono_nonneg_l; lia).
  lia.
Qed.

Lemma factor_txt_returns (time_sec : option float) : returns (factor_txt g time_sec).
Proof.
  unfold factor_txt.
  destruct (float_truthy time_sec && float_truthy (Some (BASELINE_TIME g))) eqn:E;
    [ | eexists; reflexivity].
  apply andb_prop in E. destruct E as [E1 E2].
  destruct time_sec as [t | ]; [ | discriminate].
  simpl in E2. unfold float_truediv.
  destruct (BASELINE_TIME g); try discriminate; simpl; eexists; reflexivity.
Qed.

Lemma err_txt_returns (status_code : option Z) (error : option string) :
  returns (err_txt status_code error)
  <-> str_truthy error = true \/ printable_opt status_code.
Proof.
  unfold err_txt. destruct (str_truthy error).
  - split; [auto | intros _; eexists; reflexivity].
  - destruct status_code as [n | ]; cbn [is_not_None is_None negb str_opt_int].
    + rewrite bind_returns. split.
      * intros (s & Hs & _). right. intros m [= <-].
        apply str_int_returns. exists s. exact Hs.
      * intros [H | H]; [discriminate | ].
        destruct (proj2 (str_int_returns n) (H n eq_refl)) as [s Hs].
        exists s. split; [exact Hs | eexists; reflexivity].
    + split; [intros _; right; intros m Hm; discriminate
             | intros _; eexists; reflexivity].
Qed.

Lemma returns_Ok {A : Type} (a : A) : returns (Ok a).
Proof. exists a. reflexivity. Qed.

Lemma bind_str_int_returns {B : Type} (n : Z) (k : string -> B) :
  returns (let* s := str_int n in Ok (k s)) <-> printable n.
Proof.
  rewrite bind_returns. rewrite <- str_int_returns. split.
  - intros (s & Hs & _). exists s. exact Hs.
  - intros [s Hs]. exists s. split; [exact Hs | apply returns_Ok].
Qed.

(** With the timestamp rendered, [build_message] returns exactly when the
    numbers of its branch can be rendered and divided. *)
Lemma build_message_renders (utcnow : datetime) (state : string)
    (reason_tag : option string) (status_code size_bytes : option Z)
    (time_sec : option float) (error : option string) (ts : string) :
  now_str utcnow = Ok ts ->
  (returns (build_message g utcnow state reason_tag status_code size_bytes
              time_sec error)
   <-> renders g state reason_tag status_code size_bytes error).
Proof.
  intros Hts. unfold build_message, renders. rewrite Hts. cbn [bind].
  rewrite bind_returns, <- size_txt_returns.
  split.
  - intros (stxt & Hs & H). split; [exists stxt; exact Hs | ].
    destruct (String.eqb state "GOOD"); [apply bind_str_int_returns in H; exact H | ].
    destruct (String.eqb state "ABNORMAL").
    + destruct (str_eq reason_tag "CONTENT").
      { apply bind_returns in H. destruct H as (p & Hp & H).
        apply bind_str_int_returns in H. split; [ | exact H].
        apply pct_txt_returns. exists p. exact Hp. }
      destruct (str_eq reason_tag "SLOW").
      { apply bind_returns in H. destruct H as (f & Hf & H).
        apply bind_str_int_returns in H. exact H. }
      apply bind_returns in H. destruct H as (c & Hc & _).
      apply str_opt_int_returns. exists c. exact Hc.
    + apply bind_returns in H. destruct H as (c & Hc & _).
      apply err_txt_returns. exists c. exact Hc.
  - intros ([stxt Hs] & H). exists stxt. split; [exact Hs | ].
    destruct (String.eqb state "GOOD"); [apply bind_str_int_returns; exact H | ].
    destruct (String.eqb state "ABNORMAL").
    + destruct (str_eq reason_tag "CONTENT").
      { destruct H as [Hq Hb]. apply pct_txt_returns in Hq. destruct Hq as [p Hp].
        apply bind_returns. exists p. split; [exact Hp | ].
        apply bind_str_int_returns. exact Hb. }
      destruct (str_eq reason_tag "SLOW").
      { destruct (factor_txt_returns time_sec) as [f Hf].
        apply bind_returns. exists f. split; [exact Hf | ].
        apply bind_str_int_returns. exact H. }
      apply str_opt_int_returns in H. destruct H as [c Hc].
      apply bind_returns. exists c. split; [exact Hc | apply returns_Ok].
    + apply err_txt_returns in H. destruct H as [c Hc].
      apply bind_returns. exists c. split; [exact Hc | apply returns_Ok].
Qed.


(** C10.  Every string [build_message] returns, in whichever branch, begins
    with ["SAILGPT WatchDog: "] and contains the segment ["Last check: "]
    followed by the timestamp that [now_str] rendered. *)
Theorem build_message_header_and_timestamp (utcnow : datetime) (state : string)
    (reason_tag : option string) (status_code size_bytes : option Z)
    (time_sec : option float) (error : option string) (msg : string) :
  build_message g utcnow state reason_tag status_code size_bytes time_sec error = Ok msg ->
  prefix "SAILGPT WatchDog: " msg = true
  /\ exists ts, now_str utcnow = Ok ts /\ contains ("Last check: " ++ ts) msg = true.
Proof.
  unfold build_message.
  destruct (now_str utcnow) as [ts | e]; [ | discriminate].
  cbn [bind].
  assert (Hex : forall m, prefix "SAILGPT WatchDog: " m = true /\
                          contains ("Last check: " ++ ts) m = true ->
                prefix "SAILGPT WatchDog: " m = true /\
                exists ts0, Ok ts = Ok ts0 /\ contains ("Last check: " ++ ts0) m = true).
  { intros m [H1 H2]. split; [exact H1 | exists ts; auto]. }
  destruct (size_txt size_bytes) as [stxt | e]; [ | discriminate]. cbn [bind].
  destruct (String.eqb state "GOOD").
  { destruct (str_int (BASELINE_SIZE g)) as [b | e]; [ | discriminate]. cbn [bind].
    intros H; apply Ok_inj in H; rewrite <- H. apply Hex, report_shape.
    apply (prefix_app_l _ _ state), prefix_refl. }
  destruct (String.eqb state "ABNORMAL").
  - destruct (str_eq reason_tag "CONTENT").
    { destruct (pct_txt g size_bytes) as [txt | e]; [ | discriminate]. cbn [bind].
      destruct (str_int (BASELINE_SIZE g)) as [b | e]; [ | discriminate]. cbn [bind].
      intros H; apply Ok_inj in H; rewrite <- H. apply Hex, report_shape. reflexivity. }
    destruct (str_eq reason_tag "SLOW").
    { destruct (factor_txt g time_sec) as [txt | e]; [ | discriminate]. cbn [bind].
      destruct (str_int (BASELINE_SIZE g)) as [b | e]; [ | discriminate]. cbn [bind].
      intros H; apply Ok_inj in H; rewrite <- H. apply Hex, report_shape. reflexivity. }
    destruct (str_opt_int status_code) as [c | e]; [ | discriminate]. cbn [bind].
    intros H; apply Ok_inj in H; rewrite <- H. apply Hex, report_shape. reflexivity.
  - destruct (err_txt status_code error) as [c | e]; [ | discriminate]. cbn [bind].
    intros H; apply Ok_inj in H; rewrite <- H. apply Hex, report_shape. reflexivity.
Qed.

(** C2 (amended).  [build_message] is a function of its six arguments, the
    baselines and the clock reading that [now_str] takes inside it: with the
    same arguments, two valid readings within the same minute give the same
    result. *)
Theorem build_message_same_minute (t1 t2 : datetime) (state : string)
    (reason_tag : option string) (status_code size_bytes : option Z)
    (time_sec : option float) (error : option string) :
  valid t1 = true -> valid t2 = true -> same_minute t1 t2 ->
  build_message g t1 state reason_tag status_code size_bytes time_sec error
  = build_message g t2 state reason_tag status_code size_bytes time_sec error.
Proof.
  intros V1 V2 Hsame. unfold build_message.
  rewrite (now_str_same_minute t1 t2 V1 V2 Hsame). reflexivity.
Qed.

(** C7 (amended).  In the DOWN branch (any state other than GOOD and
    ABNORMAL) the error text is the error string when it is present and not
    empty; otherwise ["HTTP "] and the status code when a status code is
    present; otherwise ["Unknown error"].  The one way the branch can raise is
    the ValueError of rendering a size or a status code of more than 4300
    digits. *)
Theorem down_error_text (utcnow : datetime) (state : string)
    (reason_tag : option string) (status_code size_bytes : option Z)
    (time_sec : option float) (error : option string) (ts : string) :
  state <> "GOOD" -> state <> "ABNORMAL" -> now_str utcnow = Ok ts ->
  build_message g utcnow state reason_tag status_code size_bytes time_sec error
  = let* size_txt := size_txt size_bytes in
    let* shown :=
      match error, status_code with
      | Some (String c e), _ => Ok (String c e)
      | _, Some n => let* code := str_int n in Ok ("HTTP " ++ code)
      | _, None => Ok "Unknown error"
      end in
    Ok (join "  "
      [ "SAILGPT WatchDog: DOWN";
        "SailGPT is not reachable.";
        "Last check: " ++ ts;
        "Error: " ++ shown ++ ".";
        "This indicates an outage at the portal/infra level." ]).
Proof.
  intros Hg Ha Hts. unfold build_message. rewrite Hts. cbn [bind].
  destruct (String.eqb_spec state "GOOD") as [E | _]; [contradiction | ].
  destruct (String.eqb_spec state "ABNORMAL") as [E | _]; [contradiction | ].
  assert (Et : err_txt status_code error
               = match error, status_code with
                 | Some (String c e), _ => Ok (String c e)
                 | _, Some n => let* code := str_int n in Ok ("HTTP " ++ code)
                 | _, None => Ok "Unknown error"
                 end).
  { destruct error as [[ | c e] | ], status_code as [n | ]; reflexivity. }
  rewrite Et. reflexivity.
Qed.

(** C8.  In the ABNORMAL/CONTENT branch an absent size, a size of 0 or a zero
    baseline size gives the text ["unknown vs normal"]; in the ABNORMAL/SLOW
    branch an absent elapsed time, an elapsed time of zero or a zero baseline
    latency gives ["slower than normal"] with no multiplier.  No ratio is
    computed: the one way either branch can raise is the ValueError of
    rendering a size or a baseline of more than 4300 digits. *)
Theorem fallback_texts (utcnow : datetime) (status_code size_bytes : option Z)
    (time_sec : option float) (error : option string) (ts : string) :
  now_str utcnow = Ok ts ->
  (size_bytes = None \/ size_bytes = Some 0 \/ BASELINE_SIZE g = 0 ->
   build_message g utcnow "ABNORMAL" (Some "CONTENT") status_code size_bytes
     time_sec error
   = let* size_txt := size_txt size_bytes in
     let* baseline_size := str_int (BASELINE_SIZE g) in
     Ok (join "  "
       [ "SAILGPT WatchDog: ABNORMAL (CONTENT)";
         "SailGPT is reachable, but the page content is unusual compared to normal.";
         "Last check: " ++ ts;
         "Page size: " ++ size_txt ++ " (normal ~"
           ++ baseline_size ++ " bytes) = " ++ "unknown vs normal" ++ ".";
         "This may indicate an error page or backend issue. Please verify manually by logging in and sending a test prompt." ]))
  /\
  (time_sec = None \/ (exists t, time_sec = Some t /\ is_zero t)
     \/ is_zero (BASELINE_TIME g) ->
   build_message g utcnow "ABNORMAL" (Some "SLOW") status_code size_bytes
     time_sec error
   = let* size_txt := size_txt size_bytes in
     let* baseline_size := str_int (BASELINE_SIZE g) in
     Ok (join "  "
       [ "SAILGPT WatchDog: ABNORMAL (SLOW)";
         "SailGPT is reachable, but slower than usual.";
         "Last check: " ++ ts;
         "Response time: " ++ time_txt time_sec ++ " (normal ~"
           ++ format_f 2 (BASELINE_TIME g) ++ " s) = " ++ "slower than normal" ++ ".";
         "Page size: " ++ size_txt ++ " (normal ~"
           ++ baseline_size ++ " bytes).";
         "System is up, but performance is degraded. May please monitor and escalate if users report issues." ])).
Proof.
  intros Hts. split; intros H; unfold build_message; rewrite Hts; cbn [bind];
    change (String.eqb "ABNORMAL" "GOOD") with false;
    change (String.eqb "ABNORMAL" "ABNORMAL") with true; cbv iota.
  - change (str_eq (Some "CONTENT") "CONTENT") with true. cbv iota.
    assert (E : pct_txt g size_bytes = Ok "unknown vs normal").
    { unfold pct_txt. destruct H as [-> | [-> | HB]]; try reflexivity.
      cbn [int_truthy]. rewrite HB. rewrite andb_false_r. reflexivity. }
    rewrite E. reflexivity.
  - change (str_eq (Some "SLOW") "CONTENT") with false.
    change (str_eq (Some "SLOW") "SLOW") with true. cbv iota.
    assert (E : factor_txt g time_sec = Ok "slower than normal").
    { unfold factor_txt. destruct H as [-> | [[t [-> Ht]] | HB]]; try reflexivity.
      - destruct t; try contradiction. reflexivity.
      - cbn [float_truthy]. destruct (BASELINE_TIME g); try contradiction.
        rewrite andb_false_r. reflexivity. }
    rewrite E. reflexivity.
Qed.

End Reporter.

(** C2, as stated, fails: the same six arguments give different strings
    under two readings of the clock. *)
Lemma build_message_reads_clock :
  build_message module_baselines (mk_datetime 2026 11 4 9 58 0 0)
    "GOOD" None (Some 200) (Some 1145) (Some (float_lit 20 2)) None
  <> build_message module_baselines (mk_datetime 2026 11 4 9 59 0 0)
    "GOOD" None (Some 200) (Some 1145) (Some (float_lit 20 2)) None.
Proof. intros H. vm_compute in H. discriminate H. Qed.

Lemma build_message_same_minute_witness :
  build_message module_baselines (mk_datetime 2026 11 4 9 58 0 0)
    "GOOD" None (Some 200) (Some 1145) (Some (float_lit 20 2)) None
  = build_message module_baselines (mk_datetime 2026 11 4 9 58 59 999999)
    "GOOD" None (Some 200) (Some 1145) (Some (float_lit 20 2)) None.
Proof.
  apply (build_message_same_minute module_baselines
           (mk_datetime 2026 11 4 9 58 0 0) (mk_datetime 2026 11 4 9 58 59 999999)).
  - reflexivity.
  - reflexivity.
  - repeat split.
Defined.




Lemma build_message_header_and_timestamp_witness :
  prefix "SAILGPT WatchDog: "
    "SAILGPT WatchDog: DOWN  SailGPT is not reachable.  Last check: 04 Nov 2026, 15:28 IST  Error: HTTP 500.  This indicates an outage at the portal/infra level."
    = true
  /\ exists ts,
       now_str (mk_datetime 2026 11 4 9 58 0 0) = Ok ts
       /\ contains ("Last check: " ++ ts)
            "SAILGPT WatchDog: DOWN  SailGPT is not reachable.  Last check: 04 Nov 2026, 15:28 IST  Error: HTTP 500.  This indicates an outage at the portal/infra level."
          = true.
Proof.
  apply (build_message_header_and_timestamp module_baselines
           (mk_datetime 2026 11 4 9 58 0 0) "DOWN" (Some "ERROR")
           (Some 500) None None None).
  vm_compute. reflexivity.
Defined.

(** C7, as stated, fails: an error that is present but empty is not the
    error text; the status code or ["Unknown error"] stands in for it. *)
Lemma down_empty_error_not_shown :
  build_message module_baselines (mk_datetime 2026 11 4 9 58 0 0)
    "DOWN" (Some "ERROR") None None None (Some "")
  = Ok "SAILGPT WatchDog: DOWN  SailGPT is not reachable.  Last check: 04 Nov 2026, 15:28 IST  Error: Unknown error.  This indicates an outage at the portal/infra level."
  /\ err_txt None (Some "") <> Ok "".
Proof. split; [vm_compute; reflexivity | discriminate]. Qed.

(** Scenario E: the error text is exactly ["Connection refused"]. *)
Lemma down_error_text_witness :
  build_message module_baselines (mk_datetime 2026 11 4 9 58 0 0)
    "DOWN" (Some "ERROR") None None None (Some "Connection refused")
  = Ok (join "  "
      [ "SAILGPT WatchDog: DOWN";
        "SailGPT is not reachable.";
        "Last check: " ++ "04 Nov 2026, 15:28 IST";
        "Error: " ++ "Connection refused" ++ ".";
        "This indicates an outage at the portal/infra level." ]).
Proof.
  apply (down_error_text module_baselines (mk_datetime 2026 11 4 9 58 0 0)
           "DOWN" (Some "ERROR") None None None (Some "Connection refused")
           "04 Nov 2026, 15:28 IST").
  - discriminate.
  - discriminate.
  - vm_compute. reflexivity.
Defined.

(** Scenarios A and C. *)
Example good_report :
  build_message module_baselines (mk_datetime 2026 11 4 9 58 0 0)
    "GOOD" None (Some 200) (Some 1145) (Some (float_lit 20 2)) None
  = Ok "SAILGPT WatchDog: GOOD  SailGPT is behaving normally.  Last check: 04 Nov 2026, 15:28 IST  Response time: 0.200 s (normal ~0.21 s)  Page size: 1145 bytes (normal ~1145 bytes)".
Proof. vm_compute. reflexivity. Qed.

Example slow_report :
  build_message module_baselines (mk_datetime 2026 11 4 9 58 0 0)
    "ABNORMAL" (Some "SLOW") (Some 200) (Some 1145) (Some (float_lit 100 2)) None
  = Ok "SAILGPT WatchDog: ABNORMAL (SLOW)  SailGPT is reachable, but slower than usual.  Last check: 04 Nov 2026, 15:28 IST  Response time: 1.000 s (normal ~0.21 s) = 4.8X slower than normal.  Page size: 1145 bytes (normal ~1145 bytes).  System is up, but performance is degraded. May please monitor and escalate if users report issues.".
Proof. vm_compute. reflexivity. Qed.

(** Scenario D: status 500 with nothing else gives ["HTTP 500"]. *)
Example down_http_500 :
  build_message module_baselines (mk_datetime 2026 11 4 9 58 0 0)
    "DOWN" (Some "ERROR") (Some 500) None None None
  = Ok "SAILGPT WatchDog: DOWN  SailGPT is not reachable.  Last check: 04 Nov 2026, 15:28 IST  Error: HTTP 500.  This indicates an outage at the portal/infra level.".
Proof. vm_compute. reflexivity. Qed.

Lemma fallback_texts_witness :
  build_message module_baselines (mk_datetime 2026 11 4 9 58 0 0)
    "ABNORMAL" (Some "CONTENT") (Some 200) (Some 0) (Some (float_lit 20 2)) None
  = Ok "SAILGPT WatchDog: ABNORMAL (CONTENT)  SailGPT is reachable, but the page content is unusual compared to normal.  Last check: 04 Nov 2026, 15:28 IST  Page size: 0 bytes (normal ~1145 bytes) = unknown vs normal.  This may indicate an error page or backend issue. Please verify manually by logging in and sending a test prompt."
  /\ build_message module_baselines (mk_datetime 2026 11 4 9 58 0 0)
    "ABNORMAL" (Some "SLOW") (Some 200) (Some 1145) None None
  = Ok "SAILGPT WatchDog: ABNORMAL (SLOW)  SailGPT is reachable, but slower than usual.  Last check: 04 Nov 2026, 15:28 IST  Response time: N/A (normal ~0.21 s) = slower than normal.  Page size: 1145 bytes (normal ~1145 bytes).  System is up, but performance is degraded. May please monitor and escalate if users report issues.".
Proof.
  assert (Hts : now_str (mk_datetime 2026 11 4 9 58 0 0)
                = Ok "04 Nov 2026, 15:28 IST") by (vm_compute; reflexivity).
  split.
  - apply (proj1 (fallback_texts module_baselines _ (Some 200) (Some 0)
                    (Some (float_lit 20 2)) None _ Hts)).
    right; left; reflexivity.
  - apply (proj2 (fallback_texts module_baselines _ (Some 200) (Some 1145)
                    None None _ Hts)).
    left; reflexivity.
Defined.

(** ** The percentage of the CONTENT report *)







(** * Further properties *)

(** ** The chat ids *)

Section Strip.

Lemma lstrip_head (s : string) :
  lstrip s = "" \/ exists c r, lstrip s = String c r /\ is_space c = false.
Proof.
  induction s as [ | c s IH]; simpl; [left; reflexivity | ].
  destruct (is_space c) eqn:E; [exact IH | right; eauto].
Qed.

Lemma rstrip_unfold (c : ascii) (s : string) :
  rstrip (String c s)
  = match rstrip s with
    | EmptyString => if is_space c then EmptyString else String c EmptyString
    | String d r => String c (String d r)
    end.
Proof. reflexivity. Qed.

Lemma rstrip_cons (c : ascii) (s : string) :
  is_space c = false -> rstrip (String c s) = String c (rstrip s).
Proof. intros E. rewrite rstrip_unfold. destruct (rstrip s); [rewrite E | ]; reflexivity. Qed.

Lemma rstrip_idem (s : string) : rstrip (rstrip s) = rstrip s.
Proof.
  induction s as [ | c s IH]; [reflexivity | ].
  rewrite rstrip_unfold. destruct (rstrip s) as [ | d r] eqn:E.
  - destruct (is_space c) eqn:Ec; [reflexivity | ].
    rewrite rstrip_unfold. cbn [rstrip]. rewrite Ec. reflexivity.
  - rewrite rstrip_unfold, IH. reflexivity.
Qed.

Lemma strip_idem (s : string) : strip (strip s) = strip s.
Proof.
  unfold strip.
  destruct (lstrip_head s) as [-> | (c & r & -> & Ec)]; [reflexivity | ].
  rewrite (rstrip_cons c r Ec). cbn [lstrip]. rewrite Ec.
  rewrite <- (rstrip_cons c r Ec). apply rstrip_idem.
Qed.

Lemma mem_char_lstrip (c : ascii) (s : string) :
  mem_char c s = false -> mem_char c (lstrip s) = false.
Proof.
  induction s as [ | d s IH]; simpl; [auto | ].
  intros H. apply orb_false_elim in H. destruct H as [H1 H2].
  destruct (is_space d); [auto | ]. simpl. rewrite H1, H2. reflexivity.
Qed.

Lemma mem_char_rstrip (c : ascii) (s : string) :
  mem_char c s = false -> mem_char c (rstrip s) = false.
Proof.
  induction s as [ | d s IH]; simpl; [auto | ].
  intros H. apply orb_false_elim in H. destruct H as [H1 H2].
  specialize (IH H2).
  destruct (rstrip s) as [ | e r].
  - destruct (is_space d); [reflexivity | ]. simpl. rewrite H1. reflexivity.
  - cbn [mem_char] in *. rewrite H1. exact IH.
Qed.

Lemma mem_char_strip (c : ascii) (s : string) :
  mem_char c s = false -> mem_char c (strip s) = false.
Proof. intros H. apply mem_char_rstrip, mem_char_lstrip, H. Qed.

Lemma split_not_nil (sep : ascii) (s : string) : split sep s <> [].
Proof.
  induction s as [ | c s IH]; simpl; [discriminate | ].
  destruct (Ascii.eqb c sep); [discriminate | ].
  destruct (split sep s); discriminate.
Qed.

Lemma split_no_sep (sep : ascii) (s w : string) :
  In w (split sep s) -> mem_char sep w = false.
Proof.
  revert w. induction s as [ | c s IH]; simpl; intros w H.
  - destruct H as [<- | []]. reflexivity.
  - destruct (Ascii.eqb c sep) eqn:E.
    + destruct H as [<- | H]; [reflexivity | auto].
    + destruct (split sep s) as [ | v vs]; simpl in H.
      * destruct H as [<- | []]. simpl. rewrite E. reflexivity.
      * destruct H as [<- | H]; [ | apply IH; right; exact H].
        simpl. rewrite E. apply IH. left. reflexivity.
Qed.

Lemma split_app (sep : ascii) (w rest : string) :
  mem_char sep w = false ->
  split sep (w ++ String sep rest) = w :: split sep rest.
Proof.
  induction w as [ | c w IH]; simpl; intros H.
  - rewrite Ascii.eqb_refl. reflexivity.
  - apply orb_false_elim in H. destruct H as [H1 H2].
    rewrite H1, (IH H2). reflexivity.
Qed.

Lemma split_single (sep : ascii) (w : string) :
  mem_char sep w = false -> split sep w = [w].
Proof.
  induction w as [ | c w IH]; simpl; intros H; [reflexivity | ].
  apply orb_false_elim in H. destruct H as [H1 H2].
  rewrite H1, (IH H2). reflexivity.
Qed.

Lemma strip_blank (s : string) : blank s = true -> mem_char "," s = false -> strip s = "".
Proof.
  unfold strip. induction s as [ | c s IH]; simpl; [reflexivity | ].
  intros H Hc. apply andb_prop in H. destruct H as [H1 H2].
  apply orb_false_elim in Hc. destruct Hc as [Hc1 Hc2].
  rewrite Hc1 in H1. simpl in H1. rewrite H1. auto.
Qed.

Lemma split_blank (s w : string) :
  blank s = true -> In w (split "," s) -> blank w = true.
Proof.
  revert w. induction s as [ | c s IH]; simpl; intros w H Hin.
  - destruct Hin as [<- | []]. reflexivity.
  - apply andb_prop in H. destruct H as [H1 H2].
    destruct (Ascii.eqb c ",") eqn:E.
    + destruct Hin as [<- | Hin]; [reflexivity | auto].
    + destruct (split "," s) as [ | v vs]; simpl in Hin.
      * destruct Hin as [<- | []]. simpl. rewrite E, H1. reflexivity.
      * destruct Hin as [<- | Hin]; [ | apply IH; [exact H2 | right; exact Hin]].
        simpl. rewrite E, H1. apply IH; [exact H2 | left; reflexivity].
Qed.

End Strip.

Section ChatIds.

(** X9.  Every chat id the module keeps is not empty, holds no comma and has
    no whitespace at either end. *)
Theorem parse_chat_ids_clean (raw cid : string) :
  In cid (parse_chat_ids raw) -> clean_id cid.
Proof.
  unfold parse_chat_ids. rewrite in_map_iff. intros (w & <- & Hw).
  apply filter_In in Hw. destruct Hw as [Hin Hne].
  repeat split.
  - intros E. rewrite E in Hne. discriminate.
  - apply mem_char_strip, (split_no_sep _ raw), Hin.
  - apply strip_idem.
Qed.

(** X10.  Clean chat ids joined by commas are read back as they were. *)
Theorem parse_chat_ids_join (ids : list string) :
  Forall clean_id ids -> parse_chat_ids (join "," ids) = ids.
Proof.
  unfold parse_chat_ids, join.
  induction ids as [ | cid ids IH]; intros H; [reflexivity | ].
  inversion H as [ | ? ? (Hne & Hc & Hs) Hrest]; subst.
  assert (Hkeep : str_truthy (Some (strip cid)) = true).
  { rewrite Hs. destruct cid; [contradiction | reflexivity]. }
  destruct ids as [ | cid' ids'].
  - cbn [String.concat]. rewrite (split_single _ _ Hc).
    cbn [filter]. rewrite Hkeep. cbn [map]. rewrite Hs. reflexivity.
  - change (String.concat "," (cid :: cid' :: ids'))
      with (cid ++ String "," (String.concat "," (cid' :: ids'))).
    rewrite (split_app _ _ _ Hc). cbn [filter]. rewrite Hkeep. cbn [map].
    rewrite Hs, (IH Hrest). reflexivity.
Qed.

Lemma filter_none {A : Type} (f : A -> bool) (l : list A) :
  (forall x, In x l -> f x = false) -> filter f l = [].
Proof.
  induction l as [ | x l IH]; intros H; [reflexivity | ].
  cbn [filter]. rewrite (H x (or_introl eq_refl)).
  apply IH. intros y Hy. apply H. right. exact Hy.
Qed.

Lemma parse_chat_ids_blank (raw : string) :
  blank raw = true -> parse_chat_ids raw = [].
Proof.
  intros Hb. unfold parse_chat_ids. rewrite filter_none; [reflexivity | ].
  intros w Hin.
  rewrite (strip_blank w (split_blank raw w Hb Hin) (split_no_sep _ raw w Hin)).
  reflexivity.
Qed.

End ChatIds.

(** ** More on the classifier *)

Section ClassifierMore.

Variable g : Baselines.

(** X1.  With status code 200, no error, a size inside the window and an
    elapsed time above the slow threshold, [classify] returns
    (ABNORMAL, SLOW). *)
Theorem classify_slow_verdict (n : Z) (t : float) :
  SIZE_LOW g <= n <= SIZE_HIGH g ->
  SFltb (SLOW_THRESHOLD g) t = true ->
  classify g (Some 200) (Some n) (Some t) None = Ok ("ABNORMAL", Some "SLOW").
Proof.
  intros [Hlo Hhi] Ht. unfold classify. simpl.
  destruct (Z.ltb_spec n (SIZE_LOW g)); [lia | ]. simpl.
  destruct (Z.gtb_spec n (SIZE_HIGH g)); [lia | ]. simpl.
  rewrite Ht. reflexivity.
Qed.

(** X2.  [classify] raises exactly when there is no error, the status code
    is 200 and either the size is absent or the size is inside the window
    and the elapsed time is absent; what it raises is TypeError. *)
Theorem classify_raises_exactly (status_code size_bytes : option Z)
    (time_sec : option float) (error : option string) (e : exn) :
  classify g status_code size_bytes time_sec error = Raise e
  <-> e = TypeError /\ error = None /\ status_code = Some 200
      /\ (size_bytes = None
          \/ exists n, size_bytes = Some n /\ SIZE_LOW g <= n <= SIZE_HIGH g
                       /\ time_sec = None).
Proof.
  unfold classify.
  destruct (is_not_None error || is_None status_code || int_ne status_code 200)
    eqn:Hguard.
  - split; [discriminate | ].
    intros (_ & He & Hs & _).
    assert (Hf : is_not_None error || is_None status_code || int_ne status_code 200
                 = false) by (apply down_guard; auto).
    congruence.
  - apply down_guard in Hguard. destruct Hguard as [-> ->].
    destruct size_bytes as [n | ]; simpl.
    2: { split.
         - intros [= <-]. auto.
         - intros (-> & _). reflexivity. }
    destruct (Z.ltb_spec n (SIZE_LOW g)); simpl.
    { split; [discriminate | ].
      intros (_ & _ & _ & [H' | (m & [= <-] & Hm & _)]); [discriminate | lia]. }
    destruct (Z.gtb_spec n (SIZE_HIGH g)); simpl.
    { split; [discriminate | ].
      intros (_ & _ & _ & [H' | (m & [= <-] & Hm & _)]); [discriminate | lia]. }
    destruct time_sec as [t | ]; simpl.
    + split; [destruct (SFltb _ t); discriminate | ].
      intros (_ & _ & _ & [H' | (m & _ & _ & H')]); discriminate.
    + split.
      * intros [= <-]. repeat split. right. exists n. repeat split; lia.
      * intros (-> & _). reflexivity.
Qed.

(** Which condition each verdict comes from. *)
Lemma classify_cases (status_code size_bytes : option Z)
    (time_sec : option float) (error : option string)
    (state : string) (reason_tag : option string) :
  classify g status_code size_bytes time_sec error = Ok (state, reason_tag) ->
  (state = "DOWN" /\ reason_tag = Some "ERROR"
   /\ (error <> None \/ status_code <> Some 200))
  \/ (error = None /\ status_code = Some 200 /\
      exists n, size_bytes = Some n /\
        ((state = "ABNORMAL" /\ reason_tag = Some "CONTENT"
          /\ (n < SIZE_LOW g \/ SIZE_HIGH g < n))
         \/ (SIZE_LOW g <= n <= SIZE_HIGH g /\
             exists t, time_sec = Some t /\
               ((state = "ABNORMAL" /\ reason_tag = Some "SLOW"
                 /\ SFltb (SLOW_THRESHOLD g) t = true)
                \/ (state = "GOOD" /\ reason_tag = None
                    /\ SFltb (SLOW_THRESHOLD g) t = false))))).
Proof.
  unfold classify.
  destruct (is_not_None error || is_None status_code || int_ne status_code 200)
    eqn:Hguard.
  - intros [= <- <-]. left. repeat split.
    destruct error as [e | ]; [left; discriminate | right].
    intros ->. discriminate.
  - apply down_guard in Hguard. destruct Hguard as [-> ->].
    intros H. right. split; [reflexivity | split; [reflexivity | ]].
    destruct size_bytes as [n | ]; simpl in H; [ | discriminate].
    exists n. split; [reflexivity | ].
    destruct (Z.ltb_spec n (SIZE_LOW g)); simpl in H.
    { injection H as <- <-. left. auto. }
    destruct (Z.gtb_spec n (SIZE_HIGH g)); simpl in H.
    { injection H as <- <-. left. auto. }
    right. split; [lia | ].
    destruct time_sec as [t | ]; simpl in H; [ | discriminate].
    exists t. split; [reflexivity | ].
    destruct (SFltb (SLOW_THRESHOLD g) t); injection H as <- <-; auto.
Qed.

(** X3.  GOOD is the one verdict without a reason, and it is returned only
    for status code 200 without error, a size inside the window and an
    elapsed time not above the slow threshold. *)
Theorem good_verdict_sound (status_code size_bytes : option Z)
    (time_sec : option float) (error : option string)
    (state : string) (reason_tag : option string) :
  classify g status_code size_bytes time_sec error = Ok (state, reason_tag) ->
  (state = "GOOD" <-> reason_tag = None)
  /\ (state = "GOOD" ->
      error = None /\ status_code = Some 200
      /\ exists n t, size_bytes = Some n /\ time_sec = Some t
           /\ SIZE_LOW g <= n <= SIZE_HIGH g
           /\ SFltb (SLOW_THRESHOLD g) t = false).
Proof.
  intros H.
  destruct (classify_cases _ _ _ _ _ _ H)
    as [(-> & -> & _)
       | (He & Hs & n & Hn & [(-> & -> & _)
                             | (Hw & t & Ht & [(-> & -> & _) | (-> & -> & Hslow)])])].
  - split; [split; discriminate | discriminate].
  - split; [split; discriminate | discriminate].
  - split; [split; discriminate | discriminate].
  - split; [split; reflexivity | intros _].
    repeat split; try assumption. exists n, t. auto.
Qed.

End ClassifierMore.

(** ** More on the clock and the reporter *)

Section ClockMore.

(** X7.  Away from the last hours of year 9999, [now_str] renders the reading
    advanced by 5 h 30 min of civil time: the same date before 18:30, the
    next calendar day from 18:30 on, as ["DD Mon YYYY, HH:MM IST"]. *)
Theorem now_str_civil (t : datetime) :
  valid t = true -> ~ last_hours t ->
  now_str t
  = Ok (two_digits (day (ist_civil t)) ++ " " ++ month_abbr (month (ist_civil t))
        ++ " " ++ decimal (year (ist_civil t)) ++ ", "
        ++ two_digits (hour (ist_civil t)) ++ ":"
        ++ two_digits (minute (ist_civil t)) ++ " IST").
Proof.
  intros V Hl. unfold now_str.
  rewrite (proj1 (add_IST_civil t V) Hl). reflexivity.
Qed.

(** X8.  On a valid reading [now_str] raises exactly from 18:30 on
    31 December 9999, and what it raises is OverflowError. *)
Theorem now_str_raises_exactly (t : datetime) (e : exn) :
  valid t = true ->
  (now_str t = Raise e <-> e = OverflowError /\ last_hours t).
Proof.
  intros V. unfold now_str.
  destruct (add_IST_civil t V) as [Hok Hraise].
  split.
  - intros H.
    assert (Hd : last_hours t \/ ~ last_hours t).
    { unfold last_hours.
      destruct (Z.eq_dec (year t) 9999), (Z.eq_dec (month t) 12),
        (Z.eq_dec (day t) 31), (Z_le_gt_dec 1110 (hour t * 60 + minute t));
        try (left; repeat split; assumption); right; intros (? & ? & ? & ?); lia. }
    destruct Hd as [Hl | Hl].
    + rewrite (Hraise Hl) in H. simpl in H. injection H as <-. auto.
    + rewrite (Hok Hl) in H. discriminate.
  - intros [-> Hl]. rewrite (Hraise Hl). reflexivity.
Qed.

Lemma now_str_returns_civil (t : datetime) :
  valid t = true -> ~ last_hours t -> returns (now_str t).
Proof.
  intros V Hl. unfold now_str.
  rewrite (proj1 (add_IST_civil t V) Hl). eexists. reflexivity.
Qed.

Lemma now_str_raises_only (t : datetime) (e : exn) :
  now_str t = Raise e -> e = OverflowError.
Proof.
  unfold now_str, Datetime.add.
  destruct (_ && _); [ | intros [= <-]; reflexivity].
  destruct (ord2ymd _) as [[y m] d]. discriminate.
Qed.

End ClockMore.

Section ReporterMore.

Variable g : Baselines.

Lemma pct_txt_raises_only (size_bytes : option Z) (e : exn) :
  pct_txt g size_bytes = Raise e -> e = OverflowError.
Proof.
  unfold pct_txt.
  destruct (int_truthy size_bytes && int_truthy (Some (BASELINE_SIZE g))) eqn:E;
    [ | discriminate].
  apply andb_prop in E. destruct E as [E1 E2].
  destruct size_bytes as [n | ]; [ | discriminate].
  simpl in E2. unfold int_truediv.
  destruct (BASELINE_SIZE g =? 0); [discriminate | ].
  destruct (_ <=? _); [intros [= <-]; reflexivity | discriminate].
Qed.

Lemma err_txt_raises_only (status_code : option Z) (error : option string)
    (e : exn) :
  err_txt status_code error = Raise e -> e = ValueError.
Proof.
  unfold err_txt. destruct (str_truthy error); [discriminate | ].
  destruct status_code as [n | ]; cbn [is_not_None is_None negb str_opt_int];
    [ | discriminate].
  destruct (str_int n) as [c | e0] eqn:E; cbn [bind]; [discriminate | ].
  intros [= <-]. exact (str_int_raises_only n e0 E).
Qed.

(** X6.  Whatever its arguments, [build_message] raises neither TypeError nor
    ZeroDivisionError: an exception that leaves it is the OverflowError of
    the date shift or of the size quotient, or the ValueError of rendering an
    int of more than 4300 digits. *)
Theorem build_message_raises_only (utcnow : datetime) (state : string)
    (reason_tag : option string) (status_code size_bytes : option Z)
    (time_sec : option float) (error : option string) (e : exn) :
  build_message g utcnow state reason_tag status_code size_bytes time_sec error
    = Raise e ->
  e = OverflowError \/ e = ValueError.
Proof.
  unfold build_message.
  destruct (now_str utcnow) as [ts | e0] eqn:Ets.
  2: { cbn [bind]. intros [= <-]. left. exact (now_str_raises_only _ _ Ets). }
  cbn [bind].
  destruct (size_txt size_bytes) as [stxt | e0] eqn:Es.
  2: { cbn [bind]. intros [= <-]. right. exact (size_txt_raises_only _ _ Es). }
  cbn [bind].
  assert (Hb : forall k : string -> string,
             (let* b := str_int (BASELINE_SIZE g) in Ok (k b)) = Raise e ->
             e = OverflowError \/ e = ValueError).
  { intros k. destruct (str_int (BASELINE_SIZE g)) as [b | e0] eqn:Eb; cbn [bind];
      [discriminate | ].
    intros [= <-]. right. exact (str_int_raises_only _ _ Eb). }
  destruct (String.eqb state "GOOD"); [apply Hb | ].
  destruct (String.eqb state "ABNORMAL").
  - destruct (str_eq reason_tag "CONTENT").
    { destruct (pct_txt g size_bytes) as [txt | e0] eqn:Ep; cbn [bind]; [apply Hb | ].
      intros [= <-]. left. exact (pct_txt_raises_only _ _ Ep). }
    destruct (str_eq reason_tag "SLOW").
    { destruct (factor_txt_returns g time_sec) as [txt ->]. cbn [bind]. apply Hb. }
    destruct status_code as [n | ]; cbn [str_opt_int bind]; [ | discriminate].
    destruct (str_int n) as [c | e0] eqn:Ec; cbn [bind]; [discriminate | ].
    intros [= <-]. right. exact (str_int_raises_only _ _ Ec).
  - destruct (err_txt status_code error) as [c | e0] eqn:Ee; cbn [bind];
      [discriminate | ].
    intros [= <-]. right. exact (err_txt_raises_only _ _ _ Ee).
Qed.

(** X4.  When the slow threshold is not negative and the baseline latency is
    not zero, the report for an input that [classify] calls SLOW always
    carries the numeric multiplier, the elapsed time divided by the baseline
    latency with one decimal, and never the bare fallback; the one way the
    branch can raise is the ValueError of rendering a size or a baseline of
    more than 4300 digits. *)
Theorem slow_report_shows_factor (utcnow : datetime)
    (status_code size_bytes : option Z) (t : float) (error : option string)
    (ts : string) :
  SFltb (SLOW_THRESHOLD g) (S754_zero false) = false ->
  ~ is_zero (BASELINE_TIME g) ->
  classify g status_code size_bytes (Some t) error = Ok ("ABNORMAL", Some "SLOW") ->
  now_str utcnow = Ok ts ->
  build_message g utcnow "ABNORMAL" (Some "SLOW") status_code size_bytes (Some t)
    error
  = let* size_txt := size_txt size_bytes in
    let* baseline_size := str_int (BASELINE_SIZE g) in
    Ok (join "  "
      [ "SAILGPT WatchDog: ABNORMAL (SLOW)";
        "SailGPT is reachable, but slower than usual.";
        "Last check: " ++ ts;
        "Response time: " ++ time_txt (Some t) ++ " (normal ~"
          ++ format_f 2 (BASELINE_TIME g) ++ " s) = "
          ++ (format_f 1 (SFdiv prec emax t (BASELINE_TIME g))
                ++ "X slower than normal") ++ ".";
        "Page size: " ++ size_txt ++ " (normal ~"
          ++ baseline_size ++ " bytes).";
        "System is up, but performance is degraded. May please monitor and escalate if users report issues." ]).
Proof.
  intros Hthr Hbase H Hts.
  assert (Hf : factor_txt g (Some t)
               = Ok (format_f 1 (SFdiv prec emax t (BASELINE_TIME g))
                     ++ "X slower than normal")).
  { destruct (classify_cases g _ _ _ _ _ _ H)
      as [(Hs & _) | (_ & _ & n & _ & [(_ & Hr & _) | (_ & t' & [= <-] & Ht)])];
      try discriminate.
    destruct Ht as [(_ & _ & Ht) | (Hs & _)]; [ | discriminate].
    unfold factor_txt, float_truediv.
    assert (Hnz : float_truthy (Some t) = true).
    { destruct t as [s | s | | s m e]; try reflexivity.
      assert (E : SFltb (SLOW_THRESHOLD g) (S754_zero s)
                  = SFltb (SLOW_THRESHOLD g) (S754_zero false))
        by (unfold SFltb, SFcompare; destruct (SLOW_THRESHOLD g); reflexivity).
      congruence. }
    rewrite Hnz.
    destruct (BASELINE_TIME g) as [s | s | | s m e]; simpl in *;
      try reflexivity; contradiction. }
  unfold build_message. rewrite Hts. cbn [bind].
  change (String.eqb "ABNORMAL" "GOOD") with false.
  change (String.eqb "ABNORMAL" "ABNORMAL") with true.
  change (str_eq (Some "SLOW") "CONTENT") with false.
  change (str_eq (Some "SLOW") "SLOW") with true. cbv iota.
  rewrite Hf. reflexivity.
Qed.

(** X5.  A report built from the verdict of [classify] starts with
    ["SAILGPT WatchDog: "] followed by the state, and for ABNORMAL with the
    reason in brackets: the report without a reason is never produced. *)
Theorem report_header_names_verdict (utcnow : datetime)
    (status_code size_bytes : option Z) (time_sec : option float)
    (error : option string) (state : string) (reason_tag : option string)
    (msg : string) :
  classify g status_code size_bytes time_sec error = Ok (state, reason_tag) ->
  build_message g utcnow state reason_tag status_code size_bytes time_sec error
    = Ok msg ->
  prefix ("SAILGPT WatchDog: " ++ state) msg = true
  /\ (state = "ABNORMAL" ->
      exists r, reason_tag = Some r
        /\ prefix ("SAILGPT WatchDog: ABNORMAL (" ++ r ++ ")") msg = true).
Proof.
  intros Hc. unfold build_message.
  destruct (now_str utcnow) as [ts | e]; [ | discriminate]. cbn [bind].
  destruct (size_txt size_bytes) as [stxt | e]; [ | discriminate]. cbn [bind].
  destruct (classify_cases g _ _ _ _ _ _ Hc)
    as [(-> & -> & _)
       | (_ & _ & n & _ & [(-> & -> & _)
                          | (_ & t & _ & [(-> & -> & _) | (-> & -> & _)])])].
  - change (String.eqb "DOWN" "GOOD") with false.
    change (String.eqb "DOWN" "ABNORMAL") with false. cbv iota.
    destruct (err_txt status_code error) as [c | e]; [ | discriminate]. cbn [bind].
    intros H; apply Ok_inj in H; rewrite <- H.
    split; [apply report_shape; reflexivity | discriminate].
  - change (String.eqb "ABNORMAL" "GOOD") with false.
    change (String.eqb "ABNORMAL" "ABNORMAL") with true.
    change (str_eq (Some "CONTENT") "CONTENT") with true. cbv iota.
    destruct (pct_txt g size_bytes) as [txt | e]; [ | discriminate]. cbn [bind].
    destruct (str_int (BASELINE_SIZE g)) as [b | e]; [ | discriminate]. cbn [bind].
    intros H; apply Ok_inj in H; rewrite <- H.
    split; [apply report_shape; reflexivity | intros _].
    exists "CONTENT". split; [reflexivity | apply report_shape; reflexivity].
  - change (String.eqb "ABNORMAL" "GOOD") with false.
    change (String.eqb "ABNORMAL" "ABNORMAL") with true.
    change (str_eq (Some "SLOW") "CONTENT") with false.
    change (str_eq (Some "SLOW") "SLOW") with true. cbv iota.
    destruct (factor_txt g time_sec) as [txt | e]; [ | discriminate]. cbn [bind].
    destruct (str_int (BASELINE_SIZE g)) as [b | e]; [ | discriminate]. cbn [bind].
    intros H; apply Ok_inj in H; rewrite <- H.
    split; [apply report_shape; reflexivity | intros _].
    exists "SLOW". split; [reflexivity | apply report_shape; reflexivity].
  - change (String.eqb "GOOD" "GOOD") with true. cbv iota.
    destruct (str_int (BASELINE_SIZE g)) as [b | e]; [ | discriminate]. cbn [bind].
    intros H; apply Ok_inj in H; rewrite <- H.
    split; [apply report_shape; apply prefix_refl | discriminate].
Qed.

End ReporterMore.

(** ** [send_telegram] and [main] *)

Section Telegram.

Lemma send_each_requests (base_url message : string) (cids : list string)
    (net : nat -> reply) (k : nat) :
  filter is_get (send_each base_url message cids net k)
  = map (fun cid => Get base_url [("chat_id", cid); ("text", message)] 5) cids.
Proof.
  revert k. induction cids as [ | cid rest IH]; intros k; [reflexivity | ].
  cbn [send_each filter is_get map]. f_equal.
  destruct (net k); cbn [filter is_get]; apply IH.
Qed.

Lemma send_each_warnings (base_url message : string) (cids : list string)
    (net : nat -> reply) (k : nat) :
  filter is_print (send_each base_url message cids net k)
  = failure_warnings cids (map net (seq k (length cids))).
Proof.
  revert k. induction cids as [ | cid rest IH]; intros k; [reflexivity | ].
  cbn [send_each filter is_print is_get negb length seq map].
  unfold failure_warnings. cbn [combine flat_map snd fst].
  destruct (net k); cbn [filter is_print is_get negb app];
    [ | f_equal]; apply IH.
Qed.

(** X11.  With [TG_TOKEN] unset or empty, or [TG_CHAT_IDS] unset, empty or
    made of commas and whitespace only, [send_telegram] prints the
    not-configured warning and issues no request. *)
Theorem blank_settings_send_nothing (env : environ) (message : string)
    (net : nat -> reply) :
  str_truthy (getenv env "TG_TOKEN") = false
  \/ blank (getenv_default env "TG_CHAT_IDS" "") = true ->
  send_telegram (module_config env) message net = [not_configured].
Proof.
  intros H. unfold send_telegram, module_config. cbn [TG_TOKEN TG_CHAT_IDS].
  destruct H as [H | H].
  - rewrite H. reflexivity.
  - rewrite (parse_chat_ids_blank _ H). cbn [is_nil]. rewrite orb_true_r. reflexivity.
Qed.

(** X12.  Once configured, [send_telegram] issues one request per chat id, in
    order, with the token in the URL and the message as text, however the
    earlier requests ended. *)
Theorem send_telegram_tries_every_id (cfg : Config) (message : string)
    (net : nat -> reply) :
  unconfigured cfg = false ->
  filter is_get (send_telegram cfg message net)
  = map (telegram_request (token_of cfg) message) (TG_CHAT_IDS cfg).
Proof.
  intros H. unfold send_telegram. fold (unconfigured cfg). rewrite H.
  apply send_each_requests.
Qed.

(** X13.  What a configured [send_telegram] prints is one warning per failed
    request, naming the chat id and the exception, and nothing else. *)
Theorem send_telegram_warns_per_failure (cfg : Config) (message : string)
    (net : nat -> reply) :
  unconfigured cfg = false ->
  filter is_print (send_telegram cfg message net)
  = failure_warnings (TG_CHAT_IDS cfg)
      (map net (seq 0 (length (TG_CHAT_IDS cfg)))).
Proof.
  intros H. unfold send_telegram. fold (unconfigured cfg). rewrite H.
  apply send_each_warnings.
Qed.

End Telegram.

Section Main.

Variable g : Baselines.
Variable cfg : Config.

Lemma classify_response (sc n : Z) (el : float) :
  exists state reason_tag,
    classify g (Some sc) (Some n) (Some el) None = Ok (state, reason_tag)
    /\ In state ["GOOD"; "ABNORMAL"; "DOWN"].
Proof.
  unfold classify. cbn [is_not_None is_None negb orb int_ne].
  destruct (negb (sc =? 200)); [do 2 eexists; split; [reflexivity | simpl; auto] | ].
  cbn [int_lt int_gt float_gt bind].
  destruct (n <? SIZE_LOW g); cbn [bind];
    [do 2 eexists; split; [reflexivity | simpl; auto] | ].
  destruct (n >? SIZE_HIGH g); cbn [bind];
    [do 2 eexists; split; [reflexivity | simpl; auto] | ].
  destruct (SFltb (SLOW_THRESHOLD g) el);
    do 2 eexists; (split; [reflexivity | simpl; auto]).
Qed.

Lemma renders_all (state : string) (reason_tag : option string)
    (status_code size_bytes : option Z) (error : option string) :
  printable_opt size_bytes -> printable_opt status_code ->
  printable (BASELINE_SIZE g) -> size_fits size_bytes ->
  renders g state reason_tag status_code size_bytes error.
Proof.
  intros Hs Hc Hb Hfit. unfold renders. split; [exact Hs | ].
  destruct (String.eqb state "GOOD"); [exact Hb | ].
  destruct (String.eqb state "ABNORMAL"); [ | right; exact Hc].
  destruct (str_eq reason_tag "CONTENT").
  - split; [ | exact Hb]. apply pct_txt_returns, pct_txt_fits, Hfit.
  - destruct (str_eq reason_tag "SLOW"); [exact Hb | exact Hc].
Qed.

(** X14.  Whatever the fetch and the Telegram requests do, neither
    [classify] nor [build_message] raises inside [main], given a clock before
    18:30 on 31 December 9999, a baseline size and a status code of at most
    4300 digits and a body shorter than [2 ^ 63] bytes. *)
Theorem main_never_raises (utcnow : datetime) (fetch : fetched)
    (net : nat -> reply) :
  valid utcnow = true -> ~ last_hours utcnow ->
  printable (BASELINE_SIZE g) ->
  (forall sc content el,
     fetch = Response sc content el ->
     printable sc /\ Z.of_nat (String.length content) < 2 ^ 63) ->
  returns (main g cfg utcnow fetch net).
Proof.
  intros V Hl Hb Hfetch.
  destruct (now_str_returns_civil utcnow V Hl) as [ts Hts].
  unfold main. destruct fetch as [sc content el | e].
  - destruct (Hfetch sc content el eq_refl) as [Hsc Hlen].
    destruct (classify_response sc (Z.of_nat (String.length content)) el)
      as (state & reason_tag & -> & _).
    cbn [bind].
    assert (Hr : renders g state reason_tag (Some sc)
                   (Some (Z.of_nat (String.length content))) None).
    { apply renders_all.
      - intros n [= <-]. apply (printable_below 63).
        + unfold MAX_STR_DIGITS. lia.
        + rewrite Z.abs_eq by lia. exact Hlen.
      - intros n [= <-]. exact Hsc.
      - exact Hb.
      - apply len_size_fits. lia. }
    apply (build_message_renders g utcnow state reason_tag (Some sc)
             (Some (Z.of_nat (String.length content))) (Some el) None ts Hts) in Hr.
    destruct Hr as [msg ->]. eexists. reflexivity.
  - change (classify g None None None (Some e)) with
      (@Ok (string * option string) ("DOWN", Some "ERROR")).
    cbn [bind].
    assert (Hr : renders g "DOWN" (Some "ERROR") None None (Some e)).
    { split; [intros n Hn; discriminate | ].
      change (String.eqb "DOWN" "GOOD") with false.
      change (String.eqb "DOWN" "ABNORMAL") with false. cbv iota.
      right. intros n Hn. discriminate. }
    apply (build_message_renders g utcnow "DOWN" (Some "ERROR") None None None
             (Some e) ts Hts) in Hr.
    destruct Hr as [msg ->]. eexists. reflexivity.
Qed.

(** X15.  A response with status 200, a body length inside the window and an
    elapsed time not above the threshold makes [main] fetch, print the GOOD
    report, the separator and the state, and send nothing to Telegram.  The
    one way such a run can raise is the ValueError of rendering a length or a
    baseline of more than 4300 digits. *)
Theorem main_good_is_silent (utcnow : datetime) (content : string) (el : float)
    (net : nat -> reply) (ts : string) :
  now_str utcnow = Ok ts ->
  SIZE_LOW g <= Z.of_nat (String.length content) <= SIZE_HIGH g ->
  SFltb (SLOW_THRESHOLD g) el = false ->
  main g cfg utcnow (Response 200 content el) net
  = let* size_txt := size_txt (Some (Z.of_nat (String.length content))) in
    let* baseline_size := str_int (BASELINE_SIZE g) in
    Ok [ Get URL [] 10;
         Print (join "  "
           [ "SAILGPT WatchDog: GOOD";
             "SailGPT is behaving normally.";
             "Last check: " ++ ts;
             "Response time: " ++ time_txt (Some el) ++ " (normal ~"
               ++ format_f 2 (BASELINE_TIME g) ++ " s)";
             "Page size: " ++ size_txt ++ " (normal ~"
               ++ baseline_size ++ " bytes)" ]);
         Print "  ";
         Print "STATE: GOOD" ].
Proof.
  intros Hts [Hlo Hhi] Hslow. unfold main, classify.
  cbn [is_not_None is_None negb orb int_ne int_lt int_gt float_gt bind Z.eqb Pos.eqb].
  destruct (Z.ltb_spec (Z.of_nat (String.length content)) (SIZE_LOW g)); [lia | ].
  cbn [bind].
  destruct (Z.gtb_spec (Z.of_nat (String.length content)) (SIZE_HIGH g)); [lia | ].
  cbn [bind]. rewrite Hslow. cbn [bind].
  unfold build_message. rewrite Hts. cbn [bind].
  change (String.eqb "GOOD" "GOOD") with true. cbv iota.
  destruct (size_txt (Some (Z.of_nat (String.length content)))) as [stxt | e];
    cbn [bind]; [ | reflexivity].
  destruct (str_int (BASELINE_SIZE g)) as [b | e]; cbn [bind]; reflexivity.
Qed.

(** X16.  A failed fetch, or a response with a status other than 200, makes
    [main] print the DOWN report and hand that same report to
    [send_telegram]; the error shown is the exception text, ["Unknown error"]
    when that text is empty, or ["HTTP "] and the status code.  With a
    response, the one way the run can raise is the ValueError of rendering a
    length or a status code of more than 4300 digits. *)
Theorem main_reports_outage (utcnow : datetime) (net : nat -> reply) (ts : string) :
  now_str utcnow = Ok ts ->
  (forall e,
     let msg := down_report ts
                  (match e with EmptyString => "Unknown error" | _ => e end) in
     main g cfg utcnow (FetchFailed e) net
     = Ok (Get URL [] 10 :: Print msg :: Print "  " :: Print "STATE: DOWN"
           :: send_telegram cfg msg net))
  /\ (forall sc content el,
        sc <> 200 ->
        main g cfg utcnow (Response sc content el) net
        = let* size_txt := size_txt (Some (Z.of_nat (String.length content))) in
          let* code := str_int sc in
          let msg := down_report ts ("HTTP " ++ code) in
          Ok (Get URL [] 10 :: Print msg :: Print "  " :: Print "STATE: DOWN"
              :: send_telegram cfg msg net)).
Proof.
  intros Hts. split.
  - intros e msg. unfold main.
    change (classify g None None None (Some e)) with
      (@Ok (string * option string) ("DOWN", Some "ERROR")).
    cbn [bind]. unfold build_message. rewrite Hts. cbn [bind size_txt].
    change (String.eqb "DOWN" "GOOD") with false.
    change (String.eqb "DOWN" "ABNORMAL") with false. cbv iota.
    assert (E : err_txt None (Some e)
                = Ok (match e with EmptyString => "Unknown error" | _ => e end))
      by (destruct e; reflexivity).
    rewrite E. reflexivity.
  - intros sc content el Hsc. unfold main, classify.
    cbn [is_not_None is_None negb orb int_ne].
    destruct (Z.eqb_spec sc 200) as [E | _]; [contradiction | ].
    cbn [negb bind]. unfold build_message. rewrite Hts. cbn [bind].
    change (String.eqb "DOWN" "GOOD") with false.
    change (String.eqb "DOWN" "ABNORMAL") with false. cbv iota.
    destruct (size_txt (Some (Z.of_nat (String.length content)))) as [stxt | e];
      cbn [bind]; [ | reflexivity].
    unfold err_txt. cbn [str_truthy is_not_None is_None negb str_opt_int].
    destruct (str_int sc) as [c | e]; cbn [bind]; reflexivity.
Qed.

(** X17.  Every run of [main] that ends starts with the fetch and three
    printed lines (report, separator, state); after them it issues no
    request when the state is GOOD or Telegram is not configured, and
    otherwise one request per chat id carrying the printed report. *)
Theorem main_alerts_unless_good (utcnow : datetime) (fetch : fetched)
    (net : nat -> reply) (tr : list event) :
  main g cfg utcnow fetch net = Ok tr ->
  exists message state,
    firstn 4 tr
    = [Get URL [] 10; Print message; Print "  "; Print ("STATE: " ++ state)]
    /\ In state ["GOOD"; "ABNORMAL"; "DOWN"]
    /\ filter is_get (skipn 4 tr)
       = if String.eqb state "GOOD" || unconfigured cfg then []
         else map (telegram_request (token_of cfg) message) (TG_CHAT_IDS cfg).
Proof.
  unfold main.
  assert (Hc : exists state reason_tag,
             (let '(status_code, size_bytes, time_sec, error) :=
                match fetch with
                | Response sc content elapsed =>
                    (Some sc, Some (Z.of_nat (String.length content)),
                     Some elapsed, None)
                | FetchFailed e => (None, None, None, Some e)
                end in
              classify g status_code size_bytes time_sec error)
             = Ok (state, reason_tag)
             /\ In state ["GOOD"; "ABNORMAL"; "DOWN"]).
  { destruct fetch as [sc content el | e]; [apply classify_response | ].
    exists "DOWN", (Some "ERROR"). split; [reflexivity | simpl; auto]. }
  destruct Hc as (state & reason_tag & Hc & Hin).
  destruct fetch as [sc content el | e]; rewrite Hc; cbn [bind];
    (destruct (build_message _ _ _ _ _ _ _ _) as [message | e0]; [ | discriminate]);
    cbn [bind]; intros H; apply Ok_inj in H; subst tr;
    exists message, state; (split; [reflexivity | split; [exact Hin | ]]);
    cbn [skipn];
    (destruct (String.eqb state "GOOD"); cbn [negb orb]; [reflexivity | ]);
    (destruct (unconfigured cfg) eqn:Eu;
       [unfold send_telegram; fold (unconfigured cfg); rewrite Eu; reflexivity
       | unfold send_telegram; fold (unconfigured cfg); rewrite Eu;
         apply send_each_requests]).
Qed.

End Main.

(** ** Instances *)

Lemma classify_slow_verdict_witness :
  classify module_baselines (Some 200) (Some 1145) (Some (float_lit 100 2)) None
  = Ok ("ABNORMAL", Some "SLOW").
Proof.
  apply (classify_slow_verdict module_baselines 1145 (float_lit 100 2)).
  - simpl. lia.
  - vm_compute. reflexivity.
Defined.

Lemma classify_raises_exactly_witness :
  classify module_baselines (Some 200) (Some 1000) None None = Raise TypeError.
Proof.
  apply (proj2 (classify_raises_exactly module_baselines (Some 200) (Some 1000)
                  None None TypeError)).
  repeat split. right. exists 1000. repeat split; simpl; lia.
Defined.

Lemma good_verdict_sound_witness :
  ("GOOD" = "GOOD" <-> @None string = None)
  /\ ("GOOD" = "GOOD" ->
      @None string = None /\ Some 200 = Some 200
      /\ exists n t, Some 1145 = Some n /\ Some (float_lit 20 2) = Some t
           /\ SIZE_LOW module_baselines <= n <= SIZE_HIGH module_baselines
           /\ SFltb (SLOW_THRESHOLD module_baselines) t = false).
Proof.
  apply (good_verdict_sound module_baselines (Some 200) (Some 1145)
           (Some (float_lit 20 2)) None "GOOD" None).
  vm_compute. reflexivity.
Defined.

Lemma slow_report_shows_factor_witness :
  build_message module_baselines (mk_datetime 2026 11 4 9 58 0 0)
    "ABNORMAL" (Some "SLOW") (Some 200) (Some 1145) (Some (float_lit 100 2)) None
  = Ok "SAILGPT WatchDog: ABNORMAL (SLOW)  SailGPT is reachable, but slower than usual.  Last check: 04 Nov 2026, 15:28 IST  Response time: 1.000 s (normal ~0.21 s) = 4.8X slower than normal.  Page size: 1145 bytes (normal ~1145 bytes).  System is up, but performance is degraded. May please monitor and escalate if users report issues.".
Proof.
  apply (slow_report_shows_factor module_baselines (mk_datetime 2026 11 4 9 58 0 0)
           (Some 200) (Some 1145) (float_lit 100 2) None "04 Nov 2026, 15:28 IST").
  - vm_compute. reflexivity.
  - vm_compute. exact (fun H => H).
  - vm_compute. reflexivity.
  - vm_compute. reflexivity.
Defined.

Lemma report_header_names_verdict_witness :
  prefix ("SAILGPT WatchDog: " ++ "ABNORMAL")
    "SAILGPT WatchDog: ABNORMAL (CONTENT)  SailGPT is reachable, but the page content is unusual compared to normal.  Last check: 04 Nov 2026, 15:28 IST  Page size: 500 bytes (normal ~1145 bytes) = 44% of normal.  This may indicate an error page or backend issue. Please verify manually by logging in and sending a test prompt."
  = true
  /\ ("ABNORMAL" = "ABNORMAL" ->
      exists r, Some "CONTENT" = Some r
        /\ prefix ("SAILGPT WatchDog: ABNORMAL (" ++ r ++ ")")
             "SAILGPT WatchDog: ABNORMAL (CONTENT)  SailGPT is reachable, but the page content is unusual compared to normal.  Last check: 04 Nov 2026, 15:28 IST  Page size: 500 bytes (normal ~1145 bytes) = 44% of normal.  This may indicate an error page or backend issue. Please verify manually by logging in and sending a test prompt."
           = true).
Proof.
  apply (report_header_names_verdict module_baselines
           (mk_datetime 2026 11 4 9 58 0 0) (Some 200) (Some 500)
           (Some (float_lit 20 2)) None "ABNORMAL" (Some "CONTENT")).
  - vm_compute. reflexivity.
  - vm_compute. reflexivity.
Defined.

Lemma build_message_raises_only_witness :
  build_message module_baselines (mk_datetime 9999 12 31 18 30 0 0)
    "GOOD" None (Some 200) (Some 1145) (Some (float_lit 20 2)) None
  = Raise OverflowError
  /\ (OverflowError = OverflowError \/ OverflowError = ValueError).
Proof.
  assert (H : build_message module_baselines (mk_datetime 9999 12 31 18 30 0 0)
                "GOOD" None (Some 200) (Some 1145) (Some (float_lit 20 2)) None
              = Raise OverflowError) by (vm_compute; reflexivity).
  split; [exact H | ].
  exact (build_message_raises_only module_baselines _ _ _ _ _ _ _ _ H).
Defined.

Lemma now_str_civil_witness :
  now_str (mk_datetime 2023 12 31 23 59 59 999999) = Ok "01 Jan 2024, 05:29 IST".
Proof.
  apply (now_str_civil (mk_datetime 2023 12 31 23 59 59 999999)).
  - reflexivity.
  - intros (H & _). discriminate H.
Defined.

Lemma now_str_raises_exactly_witness :
  now_str (mk_datetime 9999 12 31 18 30 0 0) = Raise OverflowError.
Proof.
  apply (proj2 (now_str_raises_exactly (mk_datetime 9999 12 31 18 30 0 0)
                  OverflowError eq_refl)).
  split; [reflexivity | ].
  repeat split. simpl. lia.
Defined.

Lemma parse_chat_ids_clean_witness : clean_id "-100 5".
Proof.
  apply (parse_chat_ids_clean " 123 ,, -100 5	, " "-100 5").
  vm_compute. right. left. reflexivity.
Defined.

Lemma parse_chat_ids_join_witness :
  parse_chat_ids (join "," ["123"; "-100 5"]) = ["123"; "-100 5"].
Proof.
  apply (parse_chat_ids_join ["123"; "-100 5"]).
  repeat constructor; discriminate.
Defined.

Lemma blank_settings_send_nothing_witness :
  send_telegram (module_config (fun _ => None)) "report" (fun _ => Responded)
  = [not_configured].
Proof.
  apply (blank_settings_send_nothing (fun _ => None) "report" (fun _ => Responded)).
  left. reflexivity.
Defined.

Lemma send_telegram_tries_every_id_witness :
  filter is_get
    (send_telegram (mk_Config (Some "T") ["1"; "2"]) "report"
       (fun k => match k with O => Failed "timeout" | _ => Responded end))
  = [ telegram_request "T" "report" "1"; telegram_request "T" "report" "2" ].
Proof.
  apply (send_telegram_tries_every_id (mk_Config (Some "T") ["1"; "2"]) "report"
           (fun k => match k with O => Failed "timeout" | _ => Responded end)).
  reflexivity.
Defined.

Lemma send_telegram_warns_per_failure_witness :
  filter is_print
    (send_telegram (mk_Config (Some "T") ["1"; "2"]) "report"
       (fun k => match k with O => Failed "timeout" | _ => Responded end))
  = [ Print "WARNING: Telegram send failed for 1: timeout" ].
Proof.
  apply (send_telegram_warns_per_failure (mk_Config (Some "T") ["1"; "2"]) "report"
           (fun k => match k with O => Failed "timeout" | _ => Responded end)).
  reflexivity.
Defined.

Lemma main_never_raises_witness :
  returns (main module_baselines (mk_Config (Some "T") ["1"; "2"])
             (mk_datetime 2026 11 4 9 58 0 0) (Response 200 (zeros 500) (float_lit 20 2))
             (fun _ => Failed "timeout")).
Proof.
  apply (main_never_raises module_baselines (mk_Config (Some "T") ["1"; "2"])
           (mk_datetime 2026 11 4 9 58 0 0) (Response 200 (zeros 500) (float_lit 20 2))
           (fun _ => Failed "timeout")).
  - reflexivity.
  - intros (H & _). discriminate H.
  - vm_compute. intro H. discriminate H.
  - intros sc content el H. injection H as <- <- <-. split.
    + vm_compute. intro H. discriminate H.
    + vm_compute. reflexivity.
Defined.

Lemma main_good_is_silent_witness :
  main module_baselines (mk_Config (Some "T") ["1"; "2"])
    (mk_datetime 2026 11 4 9 58 0 0)
    (Response 200 (zeros 1145) (float_lit 20 2)) (fun _ => Responded)
  = Ok [ Get URL [] 10;
         Print "SAILGPT WatchDog: GOOD  SailGPT is behaving normally.  Last check: 04 Nov 2026, 15:28 IST  Response time: 0.200 s (normal ~0.21 s)  Page size: 1145 bytes (normal ~1145 bytes)";
         Print "  ";
         Print "STATE: GOOD" ].
Proof.
  apply (main_good_is_silent module_baselines (mk_Config (Some "T") ["1"; "2"])
           (mk_datetime 2026 11 4 9 58 0 0) (zeros 1145) (float_lit 20 2)
           (fun _ => Responded) "04 Nov 2026, 15:28 IST").
  - vm_compute. reflexivity.
  - vm_compute. split; discriminate.
  - vm_compute. reflexivity.
Defined.

Lemma main_reports_outage_witness :
  main module_baselines (mk_Config None []) (mk_datetime 2026 11 4 9 58 0 0)
    (FetchFailed "Connection refused") (fun _ => Responded)
  = Ok [ Get URL [] 10;
         Print (down_report "04 Nov 2026, 15:28 IST" "Connection refused");
         Print "  ";
         Print "STATE: DOWN";
         not_configured ].
Proof.
  assert (Hts : now_str (mk_datetime 2026 11 4 9 58 0 0)
                = Ok "04 Nov 2026, 15:28 IST") by (vm_compute; reflexivity).
  exact (proj1 (main_reports_outage module_baselines (mk_Config None [])
                  (mk_datetime 2026 11 4 9 58 0 0) (fun _ => Responded)
                  "04 Nov 2026, 15:28 IST" Hts) "Connection refused").
Defined.

Lemma main_alerts_unless_good_witness :
  exists message state,
    firstn 4
      [ Get URL [] 10;
        Print (down_report "04 Nov 2026, 15:28 IST" "HTTP 503");
        Print "  ";
        Print "STATE: DOWN";
        telegram_request "T" (down_report "04 Nov 2026, 15:28 IST" "HTTP 503") "1";
        Print "WARNING: Telegram send failed for 1: timeout";
        telegram_request "T" (down_report "04 Nov 2026, 15:28 IST" "HTTP 503") "2" ]
    = [Get URL [] 10; Print message; Print "  "; Print ("STATE: " ++ state)]
    /\ In state ["GOOD"; "ABNORMAL"; "DOWN"]
    /\ filter is_get
         (skipn 4
            [ Get URL [] 10;
              Print (down_report "04 Nov 2026, 15:28 IST" "HTTP 503");
              Print "  ";
              Print "STATE: DOWN";
              telegram_request "T"
                (down_report "04 Nov 2026, 15:28 IST" "HTTP 503") "1";
              Print "WARNING: Telegram send failed for 1: timeout";
              telegram_request "T"
                (down_report "04 Nov 2026, 15:28 IST" "HTTP 503") "2" ])
       = if String.eqb state "GOOD"
            || unconfigured (mk_Config (Some "T") ["1"; "2"])
         then []
         else map (telegram_request
                     (token_of (mk_Config (Some "T") ["1"; "2"])) message)
                  (TG_CHAT_IDS (mk_Config (Some "T") ["1"; "2"])).
Proof.
  apply (main_alerts_unless_good module_baselines (mk_Config (Some "T") ["1"; "2"])
           (mk_datetime 2026 11 4 9 58 0 0)
           (Response 503 "" (float_lit 20 2))
           (fun k => match k with O => Failed "timeout" | _ => Responded end)).
  vm_compute. reflexivity.
Defined.

